(** * A notebook toolbox: the dict-based functions ([notebook_v0.py]) and
    the object models ([notebook_v1.py], [notebook_v2.py]).

    The Python code is embedded shallowly.  A value read from an [.ipynb]
    file is a [json] tree; Python exceptions are the [Raise] results of a
    small error monad; objects whose class is changed in place live in a
    store indexed by addresses. *)

From Stdlib Require Import ZArith List String Ascii Lia Bool.
From Stdlib Require Import DecimalString DecimalZ DecimalPos DecimalFacts.
From stdpp Require Import base option list gmap strings.

Import ListNotations.
Local Open Scope string_scope.
Local Open Scope list_scope.

(** ** Exceptions and the error monad *)

(** The exceptions the embedded code can raise.  [OutOfFuel] is not a
    Python exception: it is what a [while] loop of the model returns when
    its iteration budget is spent (see [load_total]: it never
    happens for the budget [PyPercentLoader.load] is run with). *)
Inductive pyerr : Type :=
| KeyError (key : string)
| IndexError
| TypeError
| ValueError
| OutOfFuel.

Inductive res (A : Type) : Type :=
| Ok (a : A)
| Raise (e : pyerr).
Arguments Ok {A} a.
Arguments Raise {A} e.

Definition bind {A B : Type} (m : res A) (k : A -> res B) : res B :=
  match m with
  | Ok a => k a
  | Raise e => Raise e
  end.

Notation "'do' x <- m ;; k" := (bind m (fun x => k))
  (at level 10, x name, m at level 99, k at level 200,
   format "'[v' 'do'  x  <-  m  ;;  '/' k ']'").

(** [for x in l: s = body s x], with the exceptions of the body. *)
Fixpoint for_each {A S : Type} (l : list A) (body : S -> A -> res S) (s : S)
  : res S :=
  match l with
  | [] => Ok s
  | x :: l' => do s' <- body s x ;; for_each l' body s'
  end.

(** ** Strings *)

Definition LF_char : ascii := ascii_of_nat 10.
Definition CR_char : ascii := ascii_of_nat 13.
(** The one-character string ["\n"]. *)
Definition LF : string := String LF_char EmptyString.

(** [sub in s] on two [str]. *)
Fixpoint str_contains (sub s : string) : bool :=
  String.prefix sub s ||
  match s with
  | EmptyString => false
  | String _ t => str_contains sub t
  end.

Fixpoint str_last (s : string) : option ascii :=
  match s with
  | EmptyString => None
  | String c EmptyString => Some c
  | String _ t => str_last t
  end.

(** [s[:-1]] *)
Fixpoint str_drop_last (s : string) : string :=
  match s with
  | EmptyString => EmptyString
  | String _ EmptyString => EmptyString
  | String c t => String c (str_drop_last t)
  end.

(** [s[n:]] *)
Fixpoint str_drop (n : nat) (s : string) : string :=
  match n, s with
  | O, _ => s
  | S _, EmptyString => EmptyString
  | S n', String _ t => str_drop n' t
  end.

(** [s[-1:] == "\n"] *)
Definition ends_with_LF (s : string) : bool :=
  match str_last s with
  | Some c => Ascii.eqb c LF_char
  | None => false
  end.

(** [s.split(sep)] for a one-character separator: the pieces between the
    occurrences of [sep] (always at least one piece). *)
Fixpoint str_split (sep : ascii) (s : string) : list string :=
  match s with
  | EmptyString => [EmptyString]
  | String c t =>
      if Ascii.eqb c sep then EmptyString :: str_split sep t
      else match str_split sep t with
           | [] => [String c EmptyString]
           | p :: ps => String c p :: ps
           end
  end.

(** ** JSON values, as [json.load] returns them *)

(** A [dict] keeps its keys in insertion order, as Python's does; floats
    play no role in the functions embedded here and are left out. *)
#[warnings="-register-all"]
Inductive json : Type :=
| JNull
| JBool (b : bool)
| JNum (z : Z)
| JStr (s : string)
| JList (l : list json)
| JDict (d : list (string * json)).

(** [v == s] for a [str] literal [s]. *)
Definition is_str (v : json) (s : string) : bool :=
  match v with
  | JStr t => String.eqb t s
  | _ => false
  end.

Fixpoint dict_get (k : string) (d : list (string * json)) : option json :=
  match d with
  | [] => None
  | (k', v) :: d' => if String.eqb k' k then Some v else dict_get k d'
  end.

(** [d[k] = v]: an existing key keeps its place, a new one goes last. *)
Fixpoint dict_set (k : string) (v : json) (d : list (string * json))
  : list (string * json) :=
  match d with
  | [] => [(k, v)]
  | (k', v') :: d' =>
      if String.eqb k' k then (k', v) :: d' else (k', v') :: dict_set k v d'
  end.

(** [x[k]] with a [str] key: only a dict accepts it. *)
Definition getitem (x : json) (k : string) : res json :=
  match x with
  | JDict d => match dict_get k d with
               | Some v => Ok v
               | None => Raise (KeyError k)
               end
  | _ => Raise TypeError
  end.

(** [x[k] = v] with a [str] key. *)
Definition setitem (x : json) (k : string) (v : json) : res json :=
  match x with
  | JDict d => Ok (JDict (dict_set k v d))
  | _ => Raise TypeError
  end.

(** [x[0]]: the first element of a list, the first character of a [str];
    a dict read from JSON has [str] keys only, so [0] is never one. *)
Definition getfirst (x : json) : res json :=
  match x with
  | JList (v :: _) => Ok v
  | JList [] => Raise IndexError
  | JStr (String c _) => Ok (JStr (String c EmptyString))
  | JStr EmptyString => Raise IndexError
  | JDict _ => Raise (KeyError "0")
  | _ => Raise TypeError
  end.

Fixpoint chars_of (s : string) : list json :=
  match s with
  | EmptyString => []
  | String c t => JStr (String c EmptyString) :: chars_of t
  end.

(** The elements [for x in v] runs over: those of a list, the keys of a
    dict, the characters of a [str]. *)
Definition py_iter (v : json) : res (list json) :=
  match v with
  | JList l => Ok l
  | JDict d => Ok (map (fun kv => JStr (fst kv)) d)
  | JStr s => Ok (chars_of s)
  | _ => Raise TypeError
  end.

(** [len(v)] *)
Definition py_len (v : json) : res nat :=
  match v with
  | JList l => Ok (length l)
  | JDict d => Ok (length d)
  | JStr s => Ok (String.length s)
  | _ => Raise TypeError
  end.

(** [s in v] for a [str] literal [s]. *)
Definition py_in (s : string) (v : json) : res bool :=
  match v with
  | JDict d => Ok (existsb (fun kv => String.eqb (fst kv) s) d)
  | JList l => Ok (existsb (fun x => is_str x s) l)
  | JStr t => Ok (str_contains s t)
  | _ => Raise TypeError
  end.

(** [ans.pop()] *)
Definition list_pop {A : Type} (l : list A) : res (list A) :=
  match l with
  | [] => Raise IndexError
  | _ => Ok (removelast l)
  end.

(** [l[i]] on a Python list. *)
Definition list_item {A : Type} (l : list A) (i : nat) : res A :=
  match nth_error l i with
  | Some x => Ok x
  | None => Raise IndexError
  end.

(** ["".join(l)] on a list of [str]. *)
Definition join_strs (l : list string) : string :=
  fold_right String.append EmptyString l.

(** ["".join(l)]: every element has to be a [str]. *)
Fixpoint py_join (l : list json) : res string :=
  match l with
  | [] => Ok EmptyString
  | JStr s :: l' => do r <- py_join l' ;; Ok (s +:+ r)
  | _ :: _ => Raise TypeError
  end.

(** [str(z)] and [int(s)] on integers. *)
Definition str_of_Z (z : Z) : string := NilZero.string_of_int (Z.to_int z).

(** [str(v)], which is also how an f-string formats [v]; [py_repr] is
    [repr] on lists and dicts (it quotes and escapes their [str] values). *)
Definition py_str (py_repr : json -> string) (v : json) : string :=
  match v with
  | JStr s => s
  | JNum z => str_of_Z z
  | JNull => "None"
  | JBool true => "True"
  | JBool false => "False"
  | _ => py_repr v
  end.

(** Characters are code points below 256; these are the ones [str.strip]
    and [int] take for white space. *)
Definition is_space (c : ascii) : bool :=
  let n := nat_of_ascii c in
  (Nat.leb 9 n && Nat.leb n 13) || (Nat.leb 28 n && Nat.leb n 32)
  || Nat.eqb n 133 || Nat.eqb n 160.

Fixpoint str_lstrip (s : string) : string :=
  match s with
  | EmptyString => EmptyString
  | String c t => if is_space c then str_lstrip t else s
  end.

Fixpoint str_rstrip (s : string) : string :=
  match s with
  | EmptyString => EmptyString
  | String c t =>
      match str_rstrip t with
      | EmptyString => if is_space c then EmptyString
                       else String c EmptyString
      | t' => String c t'
      end
  end.

(** An integer literal may hold single underscores between its digits;
    [after_digit] tells whether a character other than an underscore
    comes just before. *)
Fixpoint drop_underscores (after_digit : bool) (s : string) : option string :=
  match s with
  | EmptyString => if after_digit then Some EmptyString else None
  | String c t =>
      if Ascii.eqb c "_" then
        if after_digit then drop_underscores false t else None
      else option_map (String c) (drop_underscores true t)
  end.

Definition uint_of_str (s : string) : res Z :=
  match drop_underscores false s with
  | Some ds => match NilEmpty.uint_of_string ds with
               | Some u => Ok (Z.of_uint u)
               | None => Raise ValueError
               end
  | None => Raise ValueError
  end.

(** [int(s)]: white space around, an optional sign, decimal digits. *)
Definition int_of_str (s : string) : res Z :=
  match str_rstrip (str_lstrip s) with
  | String c t =>
      if Ascii.eqb c "-" then do z <- uint_of_str t ;; Ok (- z)%Z
      else if Ascii.eqb c "+" then uint_of_str t
      else uint_of_str (String c t)
  | EmptyString => Raise ValueError
  end.

(** * notebook_v0: functions on the dict representation *)

Module V0.

(** [to_percent]: what one cell appends to [ans]. *)
Definition percent_cell (ans : list json) (dic : json) : res (list json) :=
  do ans1 <-
    (do ct <- getitem dic "cell_type" ;;
     if is_str ct "markdown" then
       do src <- getitem dic "source" ;;
       do elems <- py_iter src ;;
       Ok (ans ++ [JStr ("# %% [markdown]" +:+ LF)]
               ++ flat_map (fun elem => [JStr "# "; elem]) elems)
     else if is_str ct "code" then
       do src <- getitem dic "source" ;;
       do elems <- py_iter src ;;
       Ok (ans ++ [JStr ("# %%" +:+ LF)] ++ elems)
     else Ok ans) ;;
  Ok (ans1 ++ [JStr LF] ++ [JStr LF]).

Definition to_percent (ipynb : json) : res string :=
  do cells <- getitem ipynb "cells" ;;
  do dics <- py_iter cells ;;
  do ans <- for_each dics percent_cell [] ;;
  do ans' <- list_pop ans ;;
  py_join ans'.

(** [clear_outputs]: the loop body, on one cell. *)
Definition clear_cell (dic : json) : res json :=
  do ct <- getitem dic "cell_type" ;;
  if is_str ct "code" then
    do dic1 <- setitem dic "execution_count" JNull ;;
    setitem dic1 "outputs" (JList [])
  else Ok dic.

Fixpoint clear_cells (dics : list json) : res (list json) :=
  match dics with
  | [] => Ok []
  | dic :: dics' =>
      do dic' <- clear_cell dic ;;
      do rest <- clear_cells dics' ;;
      Ok (dic' :: rest)
  end.

(** [clear_outputs] changes the cell dicts in place and returns [ipynb]
    itself: the value returned is [ipynb] with the changed cells.  Only
    the elements of a list can be changed; the keys of a dict and the
    characters of a [str] are [str] values, on which the body raises. *)
Definition clear_outputs (ipynb : json) : res json :=
  do cells <- getitem ipynb "cells" ;;
  do dics <- py_iter cells ;;
  do dics' <- clear_cells dics ;;
  match cells with
  | JList _ => setitem ipynb "cells" (JList dics')
  | _ => Ok ipynb
  end.

(** ** Extraction of outputs *)

(** A decoded image, as the [numpy] array has it: rows of pixels of
    channel values (height x width x channels, each value a [uint8]). *)
Definition pixels : Type := list (list (list N)).

Section Extractors.

(** [repr] of a value (quoting and escaping of [str] values included). *)
Variable py_repr : json -> string.

(** Exception objects, and [eval] on the text of a constructor call. *)
Variable exn : Type.
Variable py_eval : string -> res exn.

(** [np.array(PIL.Image.open(io.BytesIO(base64.b64decode(payload))))]:
    the decoders of the libraries the code calls. *)
Variable png_array : json -> res pixels.

(** [dic['outputs'][0]] *)
Definition first_output (dic : json) : res json :=
  do outs <- getitem dic "outputs" ;;
  getfirst outs.

(** [if flag == True and dic['outputs'][0]['name'] == name:
        output2.append(dic['outputs'][0]['text'][0])] *)
Definition stream_branch (flag : bool) (name : string) (dic : json)
    (output2 : list json) : res (list json) :=
  if flag then
    do o <- first_output dic ;;
    do n <- getitem o "name" ;;
    if is_str n name then
      do o' <- first_output dic ;;
      do text <- getitem o' "text" ;;
      do t0 <- getfirst text ;;
      Ok (output2 ++ [t0])
    else Ok output2
  else Ok output2.

Definition stream_cell (stdout stderr : bool) (output2 : list json)
    (dic : json) : res (list json) :=
  do ct <- getitem dic "cell_type" ;;
  if is_str ct "code" then
    do output2' <- stream_branch stdout "stdout" dic output2 ;;
    stream_branch stderr "stderr" dic output2'
  else Ok output2.

Definition get_stream (ipynb : json) (stdout stderr : bool) : res string :=
  do cells <- getitem ipynb "cells" ;;
  do dics <- py_iter cells ;;
  do output2 <- for_each dics (stream_cell stdout stderr) [] ;;
  Ok (join_strs (map (py_str py_repr) output2)).

Definition exception_cell (excep : list exn) (dic : json)
  : res (list exn) :=
  do ct <- getitem dic "cell_type" ;;
  if is_str ct "code" then
    do o <- first_output dic ;;
    do ot <- getitem o "output_type" ;;
    if is_str ot "error" then
      do ename <- getitem o "ename" ;;
      do evalue <- getitem o "evalue" ;;
      do call <- py_join [ename; JStr "("; JStr (py_repr evalue); JStr ")"] ;;
      do e <- py_eval call ;;
      Ok (excep ++ [e])
    else Ok excep
  else Ok excep.

Definition get_exceptions (ipynb : json) : res (list exn) :=
  do cells <- getitem ipynb "cells" ;;
  do dics <- py_iter cells ;;
  for_each dics exception_cell [].

(** The three conditions are joined by [and]: the later ones are only
    evaluated when the earlier ones hold. *)
Definition image_cell (answer : list pixels) (dic : json)
  : res (list pixels) :=
  do ct <- getitem dic "cell_type" ;;
  if is_str ct "code" then
    do outs <- getitem dic "outputs" ;;
    do n <- py_len outs ;;
    if negb (Nat.eqb n 0) then
      do o <- first_output dic ;;
      do data <- getitem o "data" ;;
      do has_png <- py_in "image/png" data ;;
      if has_png then
        do payload <- getitem data "image/png" ;;
        do arr <- png_array payload ;;
        Ok (answer ++ [arr])
      else Ok answer
    else Ok answer
  else Ok answer.

Definition get_images (ipynb : json) : res (list pixels) :=
  do cells <- getitem ipynb "cells" ;;
  do dics <- py_iter cells ;;
  for_each dics image_cell [].

End Extractors.

(** ** Accessors and the Starboard format *)

Section Starboard.

Variable py_repr : json -> string.

(** [get_format_version] *)
Definition get_format_version (ipynb : json) : res string :=
  do major <- getitem ipynb "nbformat" ;;
  do minor <- getitem ipynb "nbformat_minor" ;;
  Ok (py_str py_repr major +:+ "." +:+ py_str py_repr minor).

(** [get_metadata] *)
Definition get_metadata (ipynb : json) : res json := getitem ipynb "metadata".

(** [get_cells] *)
Definition get_cells (ipynb : json) : res json := getitem ipynb "cells".

(** The double quote, for the attribute values of the template. *)
Definition DQ : string := String (ascii_of_nat 34) EmptyString.

Definition cdn : string :=
  "https://cdn.jsdelivr.net/npm/starboard-notebook@0.15.2/dist/".

(** [starboard_html]: the f-string, line by line; [{code!r}] is the
    [repr] of the text. *)
Definition starboard_html (code : string) : string :=
  join_strs
    [LF;
     "<!doctype html>"; LF;
     "<html>"; LF;
     "    <head>"; LF;
     "        <meta charset="; DQ; "utf-8"; DQ; ">"; LF;
     "        <title>Starboard Notebook</title>"; LF;
     "        <meta name="; DQ; "viewport"; DQ; " content="; DQ;
       "width=device-width,initial-scale=1"; DQ; ">"; LF;
     "        <link rel="; DQ; "icon"; DQ; " href="; DQ; cdn;
       "favicon.ico"; DQ; ">"; LF;
     "        <link href="; DQ; cdn; "starboard-notebook.css"; DQ;
       " rel="; DQ; "stylesheet"; DQ; ">"; LF;
     "    </head>"; LF;
     "    <body>"; LF;
     "        <script>"; LF;
     "            window.initialNotebookContent = "; py_repr (JStr code); LF;
     "            window.starboardArtifactsUrl = `"; cdn; "`;"; LF;
     "        </script>"; LF;
     "        <script src="; DQ; cdn; "starboard-notebook.js"; DQ;
       "></script>"; LF;
     "    </body>"; LF;
     "</html>"; LF].

(** [to_starboard(ipynb)], the branch [html == False]: what one cell
    appends to the list (named [list] in the source). *)
Definition starboard_cell (lst : list json) (dic : json) : res (list json) :=
  do lst1 <-
    (do ct <- getitem dic "cell_type" ;;
     if is_str ct "markdown" then
       do src <- getitem dic "source" ;;
       do elems <- py_iter src ;;
       Ok (lst ++ [JStr ("# %% [markdown]" +:+ LF)] ++ elems)
     else if is_str ct "code" then
       do src <- getitem dic "source" ;;
       do elems <- py_iter src ;;
       Ok (lst ++ [JStr ("# %% [python]" +:+ LF)] ++ elems)
     else Ok lst) ;;
  Ok (lst1 ++ [JStr LF]).

(** The branch [html == True]: every cell that is not a markdown cell
    gets the [python] marker, and its source is read. *)
Definition starboard_html_cell (ans : list json) (dic : json)
  : res (list json) :=
  do ct <- getitem dic "cell_type" ;;
  let ans1 := if is_str ct "markdown"
              then ans ++ [JStr ("# %% [markdown]" +:+ LF)]
              else ans ++ [JStr ("# %% [python]" +:+ LF)] in
  do src <- getitem dic "source" ;;
  do elems <- py_iter src ;;
  Ok (ans1 ++ elems ++ [JStr LF]).

(** [to_starboard(ipynb, html)] for a Boolean [html]. *)
Definition to_starboard (ipynb : json) (html : bool) : res string :=
  if html then
    do cells <- getitem ipynb "cells" ;;
    do dics <- py_iter cells ;;
    do ans <- for_each dics starboard_html_cell [] ;;
    do ans' <- list_pop ans ;;
    do string54 <- py_join ans' ;;
    Ok (starboard_html string54)
  else
    do cells <- getitem ipynb "cells" ;;
    do dics <- py_iter cells ;;
    do lst <- for_each dics starboard_cell [] ;;
    do lst' <- list_pop lst ;;
    Ok (join_strs (map (py_str py_repr) lst')).

End Starboard.

End V0.

(** * notebook_v1: the object model built from a dict *)

Module V1.

(** An object of class [CodeCell] or [MarkdownCell] with the attributes
    its [__init__] sets; each holds whatever the dict held. *)
Inductive cell : Type :=
| CodeCell (id cell_type execution_count source : json)
| MarkdownCell (cell_type id source : json).

Definition cell_id (c : cell) : json :=
  match c with
  | CodeCell id _ _ _ => id
  | MarkdownCell _ id _ => id
  end.

Definition cell_source (c : cell) : json :=
  match c with
  | CodeCell _ _ _ src => src
  | MarkdownCell _ _ src => src
  end.

Definition cell_type_attr (c : cell) : json :=
  match c with
  | CodeCell _ ct _ _ => ct
  | MarkdownCell ct _ _ => ct
  end.

(** [isinstance(c, MarkdownCell)] *)
Definition is_markdown (c : cell) : bool :=
  match c with
  | MarkdownCell _ _ _ => true
  | CodeCell _ _ _ _ => false
  end.

Record Notebook : Type := mkNotebook { version : string; cells : list cell }.

(** [CodeCell.__init__] *)
Definition CodeCell_init (ipynb : json) : res cell :=
  do id <- getitem ipynb "id" ;;
  do ct <- getitem ipynb "cell_type" ;;
  do ec <- getitem ipynb "execution_count" ;;
  do src <- getitem ipynb "source" ;;
  Ok (CodeCell id ct ec src).

(** [MarkdownCell.__init__] *)
Definition MarkdownCell_init (ipynb : json) : res cell :=
  do ct <- getitem ipynb "cell_type" ;;
  do id <- getitem ipynb "id" ;;
  do src <- getitem ipynb "source" ;;
  Ok (MarkdownCell ct id src).

Section Init.

Variable py_repr : json -> string.

Definition init_cell (cells : list cell) (dic : json) : res (list cell) :=
  do ct <- getitem dic "cell_type" ;;
  if is_str ct "code" then
    do c <- CodeCell_init dic ;; Ok (cells ++ [c])
  else if is_str ct "markdown" then
    do c <- MarkdownCell_init dic ;; Ok (cells ++ [c])
  else Ok cells.

(** [Notebook.__init__] *)
Definition Notebook_init (ipynb : json) : res Notebook :=
  do major <- getitem ipynb "nbformat" ;;
  do minor <- getitem ipynb "nbformat_minor" ;;
  do cells_v <- getitem ipynb "cells" ;;
  do dics <- py_iter cells_v ;;
  do cells <- for_each dics init_cell [] ;;
  Ok (mkNotebook (py_str py_repr major +:+ "." +:+ py_str py_repr minor)
                 cells).

End Init.

(** [PyPercentSerializer.to_py_percent]: what one cell appends to [ans]. *)
Definition py_percent_cell (ans : list json) (c : cell) : res (list json) :=
  do ans1 <-
    match c with
    | MarkdownCell _ _ src =>
        do elems <- py_iter src ;;
        Ok (ans ++ [JStr ("# %% [markdown]" +:+ LF)]
                ++ flat_map (fun elem => [JStr "# "; elem]) elems)
    | CodeCell _ _ _ src =>
        do elems <- py_iter src ;;
        Ok (ans ++ [JStr ("# %%" +:+ LF)] ++ elems)
    end ;;
  Ok (ans1 ++ [JStr (LF +:+ LF)]).

Definition to_py_percent (nb : Notebook) : res string :=
  do ans <- for_each (cells nb) py_percent_cell [] ;;
  do ans' <- list_pop ans ;;
  py_join ans'.

(** [Serializer.serialize]: the dict of one cell. *)
Definition serialize_cell (c : cell) : json :=
  match c with
  | MarkdownCell ct id src =>
      JDict [("cell_type", ct); ("id", id); ("medatada", JDict []);
             ("source", src)]
  | CodeCell id ct ec src =>
      JDict [("cell_type", ct); ("execution_count", ec); ("id", id);
             ("medatada", JDict []); ("outputs", JList []); ("source", src)]
  end.

Definition serialize (nb : Notebook) : res json :=
  let dic := [("cells", JList (map serialize_cell (cells nb)));
              ("metadata", JDict [])] in
  do major_s <- list_item (str_split "." (version nb)) 0 ;;
  do major <- int_of_str major_s ;;
  do minor_s <- list_item (str_split "." (version nb)) 1 ;;
  do minor <- int_of_str minor_s ;;
  Ok (JDict (dict_set "nbformat_minor" (JNum minor)
               (dict_set "nbformat" (JNum major) dic))).

(** ** [Outliner] *)

Section Outline.

Variable py_repr : json -> string.

(** [x[i]] for an index [i] that is not negative. *)
Definition py_item (x : json) (i : nat) : res json :=
  match x with
  | JList l => list_item l i
  | JStr s => match String.get i s with
              | Some c => Ok (JStr (String c EmptyString))
              | None => Raise IndexError
              end
  | JDict _ => Raise (KeyError (str_of_Z (Z.of_nat i)))
  | _ => Raise TypeError
  end.

(** [x[-1]] *)
Definition py_last (x : json) : res json :=
  match x with
  | JList [] => Raise IndexError
  | JList (v :: l) => Ok (List.last l v)
  | JStr s => match str_last s with
              | Some c => Ok (JStr (String c EmptyString))
              | None => Raise IndexError
              end
  | JDict _ => Raise (KeyError "-1")
  | _ => Raise TypeError
  end.

(** The lines of a source: with [top], [mid] and [bot] before the lines
    of a source of several lines, with a bar before a single line. *)
Definition outline_source (top mid bot : string) (src : json)
    (out : list string) : res (list string) :=
  do n <- py_len src ;;
  do out1 <-
    (if Nat.ltb 1 n then
       do s0 <- py_item src 0 ;;
       do out' <- for_each (seq 1 (n - 1 - 1))
                    (fun o i => do si <- py_item src i ;;
                                Ok (o ++ [mid +:+ py_str py_repr si]))
                    (out ++ [top +:+ py_str py_repr s0]) ;;
       do sl <- py_last src ;;
       Ok (out' ++ [bot +:+ py_str py_repr sl])
     else Ok out) ;;
  do n' <- py_len src ;;
  if Nat.eqb n' 1 then
    do s0 <- py_item src 0 ;;
    Ok (out1 ++ ["    | " +:+ py_str py_repr s0])
  else Ok out1.

Definition outline_cell (out : list string) (c : cell) : res (list string) :=
  match c with
  | MarkdownCell _ id src =>
      do out1 <- outline_source "    ┌  " "    │  " "    └  " src
                   (out ++ ["└─▶ Markdown cell #" +:+ py_str py_repr id +:+ LF]) ;;
      Ok (out1 ++ [LF])
  | CodeCell id _ ec src =>
      do out1 <- outline_source "    ┌ " "    │ " "    └ " src
                   (out ++ ["└─▶ Code cell #" +:+ py_str py_repr id +:+ " ("
                              +:+ py_str py_repr ec +:+ ")" +:+ LF]) ;;
      Ok (out1 ++ [LF])
  end.

(** [Outliner(nb).outline()] *)
Definition outline (nb : Notebook) : res string :=
  do out <- for_each (cells nb) outline_cell
              ["Jupyter Notebook v" +:+ version nb +:+ LF] ;;
  do out' <- list_pop out ;;
  Ok (join_strs out').

End Outline.

End V1.

(** * notebook_v2: cells built from their fields, loaders, transforms *)

Module V2.

(** The class of a cell object.  [MarkdownCell] is a subclass of
    [CodeCell] and runs its [__init__], so every cell has the three
    attributes; the class is kept apart because [markdownize] assigns it. *)
Inductive class : Type := CodeCellClass | MarkdownCellClass.

Record cell : Type := mkCell {
  cell_class : class;
  id : json;
  source : json;
  execution_count : json
}.

(** [CodeCell(id, source, execution_count)] *)
Definition CodeCell (id source execution_count : json) : cell :=
  mkCell CodeCellClass id source execution_count.

(** [MarkdownCell(id, source)]: [super().__init__(id, source, None)] *)
Definition MarkdownCell (id source : json) : cell :=
  mkCell MarkdownCellClass id source JNull.

(** [isinstance(c, CodeCell)]: true of both classes. *)
Definition isinstance_CodeCell (c : cell) : bool :=
  match cell_class c with
  | CodeCellClass => true
  | MarkdownCellClass => true
  end.

(** [isinstance(c, MarkdownCell)] *)
Definition isinstance_MarkdownCell (c : cell) : bool :=
  match cell_class c with
  | CodeCellClass => false
  | MarkdownCellClass => true
  end.

Record Notebook : Type := mkNotebook { version : string; cells : list cell }.

Section Loader.

Variable py_repr : json -> string.

Definition load_cell (cell : list V2.cell) (dic : json)
  : res (list V2.cell) :=
  do ct <- getitem dic "cell_type" ;;
  if is_str ct "code" then
    do i <- getitem dic "id" ;;
    do src <- getitem dic "source" ;;
    do ec <- getitem dic "execution_count" ;;
    Ok (cell ++ [CodeCell i src ec])
  else if is_str ct "markdown" then
    do i <- getitem dic "id" ;;
    do src <- getitem dic "source" ;;
    Ok (cell ++ [MarkdownCell i src])
  else Ok cell.

(** [NotebookLoader.load], from the value [json.load] returned. *)
Definition NotebookLoader_load (nb : json) : res Notebook :=
  do cells_v <- getitem nb "cells" ;;
  do dics <- py_iter cells_v ;;
  do cell <- for_each dics load_cell [] ;;
  do major <- getitem nb "nbformat" ;;
  do minor <- getitem nb "nbformat_minor" ;;
  Ok (mkNotebook (py_str py_repr major +:+ "." +:+ py_str py_repr minor)
                 cell).

End Loader.

(** ** Reading a text file *)

(** Text mode translates ["\r\n"] and ["\r"] to ["\n"] on reading. *)
Fixpoint universal_newlines (s : string) : string :=
  match s with
  | EmptyString => EmptyString
  | String c t =>
      if Ascii.eqb c CR_char then
        match t with
        | String c' t' =>
            if Ascii.eqb c' LF_char then String LF_char (universal_newlines t')
            else String LF_char (universal_newlines t)
        | EmptyString => LF
        end
      else String c (universal_newlines t)
  end.

(** The lines of a text, each with its ["\n"] (the last one may lack it). *)
Fixpoint split_lines (s : string) : list string :=
  match s with
  | EmptyString => []
  | String c t =>
      if Ascii.eqb c LF_char then LF :: split_lines t
      else match split_lines t with
           | [] => [String c EmptyString]
           | line :: rest => String c line :: rest
           end
  end.

(** [f.readlines()] on a file holding [text]. *)
Definition readlines (text : string) : list string :=
  split_lines (universal_newlines text).

(** ** [PyPercentLoader.load] *)

(** The inner [while counter < l - 1 and blankline == False] of the
    markdown branch; it returns the counter and the lines collected. *)
Fixpoint markdown_block (fuel : nat) (lines : list string) (l counter : nat)
    (markdown_cell : list string) : res (nat * list string) :=
  if Nat.ltb counter (l - 1) then
    match fuel with
    | O => Raise OutOfFuel
    | S fuel' =>
        do line <- list_item lines counter ;;
        if String.eqb line LF then Ok (counter + 1, markdown_cell)
        else if ends_with_LF line then
          markdown_block fuel' lines l (counter + 1)
            (markdown_cell ++ [str_drop 2 (str_drop_last line)])
        else
          markdown_block fuel' lines l (counter + 1)
            (markdown_cell ++ [str_drop 2 line])
    end
  else Ok (counter, markdown_cell).

(** The same loop of the code branch. *)
Fixpoint code_block (fuel : nat) (lines : list string) (l counter : nat)
    (code_cell : list string) : res (nat * list string) :=
  if Nat.ltb counter (l - 1) then
    match fuel with
    | O => Raise OutOfFuel
    | S fuel' =>
        do line <- list_item lines counter ;;
        if String.eqb line LF then Ok (counter + 1, code_cell)
        else if ends_with_LF line then
          code_block fuel' lines l (counter + 1)
            (code_cell ++ [str_drop_last line])
        else
          code_block fuel' lines l (counter + 1) (code_cell ++ [line])
    end
  else Ok (counter, code_cell).

(** The outer [while counter < l - 1]. *)
Fixpoint load_loop (fuel : nat) (lines : list string) (l counter : nat)
    (id : Z) (cells : list cell) : res (list cell) :=
  if Nat.ltb counter (l - 1) then
    match fuel with
    | O => Raise OutOfFuel
    | S fuel' =>
        do line <- list_item lines counter ;;
        if str_contains "markdown" line then
          do r <- markdown_block l lines l (counter + 1) [] ;;
          load_loop fuel' lines l (fst r) (id + 1)
            (cells ++ [MarkdownCell (JNum id) (JList (map JStr (snd r)))])
        else
          do r <- code_block l lines l (counter + 1) [] ;;
          load_loop fuel' lines l (fst r) (id + 1)
            (cells ++ [CodeCell (JNum id) (JList (map JStr (snd r))) (JNum 1)])
    end
  else Ok cells.

(** [PyPercentLoader(filename, version).load()], from the lines read. *)
Definition load_lines (version : string) (lines : list string)
  : res Notebook :=
  let l := length lines in
  do cells <- load_loop l lines l 0 0%Z [] ;;
  Ok (mkNotebook version cells).

Definition PyPercentLoader_load (version : string) (text : string)
  : res Notebook :=
  load_lines version (readlines text).

(** ** Transforms on notebooks whose cells are shared objects *)

(** [Markdownizer] and [MarkdownLesser] keep the list of cells of the
    notebook they are built from: the cell objects are shared with it.  A
    store maps the address of each cell object to its state, and a
    notebook holds addresses. *)
Record NotebookRef : Type :=
  mkNotebookRef { ref_version : string; ref_cells : list nat }.

(** [cell.__class__ = MarkdownCell] *)
Definition set_class_markdown (c : cell) : cell :=
  mkCell MarkdownCellClass (id c) (source c) (execution_count c).

Definition markdownize_cell (h : gmap nat cell) (a : nat) : gmap nat cell :=
  alter (fun c => if isinstance_CodeCell c then set_class_markdown c else c)
        a h.

(** [Markdownizer(notebook).markdownize()]: the store afterwards and the
    object returned. *)
Definition markdownize (self : NotebookRef) (h : gmap nat cell)
  : gmap nat cell * NotebookRef :=
  (foldl markdownize_cell h (ref_cells self), self).

(** [MarkdownLesser(notebook).remove_markdown_cells()]: a new list is
    bound to [self.cells]; no cell object is written. *)
Definition remove_markdown_cells (self : NotebookRef) (h : gmap nat cell)
  : gmap nat cell * NotebookRef :=
  (h, mkNotebookRef (ref_version self)
        (List.filter (fun a => match h !! a with
                               | Some c => negb (isinstance_MarkdownCell c)
                               | None => false
                               end) (ref_cells self))).

End V2.

(** * Notebooks as [Notebook.__init__] builds them *)

(** The [cell_type] attribute of a cell agrees with its class. *)
Definition wf_cell (c : V1.cell) : Prop :=
  match c with
  | V1.CodeCell _ ct _ _ => ct = JStr "code"
  | V1.MarkdownCell ct _ _ => ct = JStr "markdown"
  end.

(** The version is [f"{major}.{minor}"] for two integers, and every cell
    is well formed. *)
Definition wf_notebook (nb : V1.Notebook) : Prop :=
  (exists major minor : Z,
      V1.version nb = str_of_Z major +:+ "." +:+ str_of_Z minor) /\
  Forall wf_cell (V1.cells nb).

(** A cell of the v2 model has the identifier, the kind and the source
    lines of a cell of the v1 model. *)
Definition same_cell (c : V1.cell) (c' : V2.cell) : Prop :=
  V2.id c' = V1.cell_id c /\
  V2.cell_class c'
    = (if V1.is_markdown c then V2.MarkdownCellClass else V2.CodeCellClass) /\
  V2.source c' = V1.cell_source c.

(** The decimal digits. *)
Definition is_digit (c : ascii) : bool :=
  let n := nat_of_ascii c in Nat.leb 48 n && Nat.leb n 57.

Fixpoint str_forall (P : ascii -> bool) (s : string) : bool :=
  match s with
  | EmptyString => true
  | String c t => P c && str_forall P t
  end.

(** * The elements a cell appends to [ans] *)

(** The marker and the source lines of a cell, which both emitters of the
    percent format append before the separator. *)
Definition percent_chunk (c : V1.cell) : res (list json) :=
  match c with
  | V1.MarkdownCell _ _ src =>
      do elems <- py_iter src ;;
      Ok (JStr ("# %% [markdown]" +:+ LF)
            :: flat_map (fun elem => [JStr "# "; elem]) elems)
  | V1.CodeCell _ _ _ src =>
      do elems <- py_iter src ;;
      Ok (JStr ("# %%" +:+ LF) :: elems)
  end.

(** A cell dict whose type is one of the two the emitters know. *)
Definition known_type (dic : json) : Prop :=
  exists ct, getitem dic "cell_type" = Ok ct /\
             (is_str ct "code" || is_str ct "markdown") = true.

(** [ans0] and [ans1] are empty, or end with the separator of
    [to_percent] and of [to_py_percent] after elements that join to the
    same text. *)
Definition same_upto_separator (ans0 ans1 : list json) : Prop :=
  (ans0 = [] /\ ans1 = []) \/
  exists x0 x1, ans0 = x0 ++ [JStr LF; JStr LF] /\
                ans1 = x1 ++ [JStr (LF +:+ LF)] /\
                py_join x0 = py_join x1.

(** What the two loops leave in [ans], or the exception both raise. *)
Definition same_outcome (r0 r1 : res (list json)) : Prop :=
  match r0, r1 with
  | Ok ans0, Ok ans1 => same_upto_separator ans0 ans1
  | Raise e0, Raise e1 => e0 = e1
  | _, _ => False
  end.


(** A cell dict that has a [cell_type]. *)
Definition has_cell_type (c : json) : Prop :=
  exists d ct, c = JDict d /\ dict_get "cell_type" d = Some ct.

(** * Cells with a single source line *)

(** A cell whose source is one line: its kind, identifier, execution
    count (of a code cell) and the line. *)
Record line_cell : Type := mkLineCell {
  lc_markdown : bool;
  lc_id : json;
  lc_count : json;
  lc_line : string
}.

Definition v1_cell (x : line_cell) : V1.cell :=
  if lc_markdown x then
    V1.MarkdownCell (JStr "markdown") (lc_id x) (JList [JStr (lc_line x)])
  else
    V1.CodeCell (lc_id x) (JStr "code") (lc_count x) (JList [JStr (lc_line x)]).

(** The line holds no newline character, and a code cell is not empty. *)
Definition no_newline (c : ascii) : bool :=
  negb (Ascii.eqb c LF_char) && negb (Ascii.eqb c CR_char).

Definition plain_line (x : line_cell) : Prop :=
  str_forall no_newline (lc_line x) = true /\
  (lc_markdown x = false -> lc_line x <> EmptyString).

(** The lines [to_py_percent] writes for a cell: the marker and the
    source line; the separator ends the line and adds a blank one. *)
Definition marker_line (x : line_cell) : string :=
  (if lc_markdown x then "# %% [markdown]" else "# %%") +:+ LF.

Definition source_line (x : line_cell) : string :=
  if lc_markdown x then "# " +:+ lc_line x else lc_line x.

Definition cell_lines (x : line_cell) : list string :=
  [marker_line x; source_line x +:+ LF; LF].

Definition last_cell_lines (x : line_cell) : list string :=
  [marker_line x; source_line x].

(** The cell [PyPercentLoader.load] builds for a cell of source [src]. *)
Definition loaded_cell (id : Z) (x : line_cell) (src : list string) : V2.cell :=
  if lc_markdown x then V2.MarkdownCell (JNum id) (JList (map JStr src))
  else V2.CodeCell (JNum id) (JList (map JStr src)) (JNum 1).

Fixpoint loaded_cells (id : Z) (xs : list line_cell) : list V2.cell :=
  match xs with
  | [] => []
  | x :: xs' => loaded_cell id x [lc_line x] :: loaded_cells (id + 1) xs'
  end.

(** A line of a text file: no newline character but the one that ends it. *)
Definition terminated (s : string) : Prop :=
  exists body, s = body +:+ LF /\ str_forall no_newline body = true.

Definition not_CR (c : ascii) : bool := negb (Ascii.eqb c CR_char).
Definition not_LF (c : ascii) : bool := negb (Ascii.eqb c LF_char).

(** * Cells of a dict, and what clearing does to one *)

(** The cells [for dic in ipynb['cells']] runs over. *)
Definition cells_of (ipynb : json) : res (list json) :=
  do cells <- getitem ipynb "cells" ;;
  py_iter cells.

(** [dic['cell_type'] == 'code'] holds (and raises nothing). *)
Definition is_code (dic : json) : bool :=
  match getitem dic "cell_type" with
  | Ok ct => is_str ct "code"
  | Raise _ => false
  end.

(** [dic'] is [dic] after the body of the loop of [clear_outputs]: a code
    cell has lost its execution count and outputs, every other key of a
    cell is as it was, and a cell that is not a code cell is unchanged. *)
Definition cleared (dic dic' : json) : Prop :=
  (forall k, k <> "execution_count" -> k <> "outputs" ->
             getitem dic' k = getitem dic k) /\
  (is_code dic = false -> dic' = dic) /\
  (is_code dic = true ->
   getitem dic' "execution_count" = Ok JNull /\
   getitem dic' "outputs" = Ok (JList [])).

(** What [serialize] keeps of a cell dict that [Notebook.__init__] read:
    type, identifier and source, and the execution count of a code cell;
    the outputs are emptied and there is no [metadata] key. *)
Definition kept_by_serialize (dic dic' : json) : Prop :=
  getitem dic' "cell_type" = getitem dic "cell_type" /\
  getitem dic' "id" = getitem dic "id" /\
  getitem dic' "source" = getitem dic "source" /\
  getitem dic' "metadata" = Raise (KeyError "metadata") /\
  (is_code dic = true ->
   getitem dic' "execution_count" = getitem dic "execution_count" /\
   getitem dic' "outputs" = Ok (JList [])).

(** * What the percent loader reads and builds *)

(** A line as [readlines] returns it: not empty, without a carriage
    return, and with no newline but a last one. *)
Definition line_ok (s : string) : Prop :=
  s <> EmptyString /\
  str_forall not_CR s = true /\
  str_forall not_LF (str_drop_last s) = true.

(** The cell number [i] of a loaded notebook: its identifier is [i], its
    source a list of [str], and it is a markdown cell without execution
    count or a code cell of execution count 1. *)
Definition loaded_shape (i : Z) (c : V2.cell) : Prop :=
  V2.id c = JNum i /\
  (exists src, V2.source c = JList (map JStr src)) /\
  (V2.cell_class c = V2.MarkdownCellClass /\ V2.execution_count c = JNull \/
   V2.cell_class c = V2.CodeCellClass /\ V2.execution_count c = JNum 1).

(** The source of a cell is a list of lines without newline characters. *)
Definition source_without_newline (c : V2.cell) : Prop :=
  exists src, V2.source c = JList (map JStr src) /\
              Forall (fun s => str_forall no_newline s = true) src.

(** * Cells whose source is made of [str] *)

(** The source of the cell dict is there and runs over [str] values. *)
Definition str_source (dic : json) : Prop :=
  exists src elems,
    getitem dic "source" = Ok src /\ py_iter src = Ok (map JStr elems).

(** Every element is a [str]. *)
Definition all_str (l : list json) : Prop :=
  Forall (fun v => exists s, v = JStr s) l.

(** A cell dict that has a type, which is not [code]. *)
Definition not_code (dic : json) : Prop :=
  exists ct, getitem dic "cell_type" = Ok ct /\ is_str ct "code" = false.

(** * Sample notebooks *)

Module Samples.

(** [{'cells': [], 'metadata': {}, 'nbformat': 4, 'nbformat_minor': 5}],
    the content of [samples/minimal.ipynb]. *)
Definition minimal : json :=
  JDict [("cells", JList []); ("metadata", JDict []); ("nbformat", JNum 4);
         ("nbformat_minor", JNum 5)].

Definition notebook_of (cells : list json) : json :=
  JDict [("cells", JList cells); ("metadata", JDict []);
         ("nbformat", JNum 4); ("nbformat_minor", JNum 5)].

Definition markdown_dict (id : string) (source : list string) : json :=
  JDict [("cell_type", JStr "markdown"); ("id", JStr id);
         ("metadata", JDict []); ("source", JList (map JStr source))].

Definition code_dict (id : string) (source : list string) (count : json)
    (outputs : list json) : json :=
  JDict [("cell_type", JStr "code"); ("execution_count", count);
         ("id", JStr id); ("metadata", JDict []);
         ("outputs", JList outputs); ("source", JList (map JStr source))].

(** A markdown cell [a] with source [["Hi\n"]], then a code cell [b] with
    source [["x=1"]], execution count 1 and no outputs. *)
Definition hi_dict : json :=
  notebook_of [markdown_dict "a" ["Hi" +:+ LF];
               code_dict "b" ["x=1"] (JNum 1) []].

(** The same notebook as [Notebook(hi_dict)] builds it. *)
Definition hi_notebook : V1.Notebook :=
  V1.mkNotebook "4.5"
    [V1.MarkdownCell (JStr "markdown") (JStr "a") (JList [JStr ("Hi" +:+ LF)]);
     V1.CodeCell (JStr "b") (JStr "code") (JNum 1) (JList [JStr "x=1"])].

(** The text the percent format is expected to give for it. *)
Definition hi_percent : string :=
  "# %% [markdown]" +:+ LF +:+ "# Hi" +:+ LF +:+ LF +:+ LF
  +:+ "# %%" +:+ LF +:+ "x=1".

Definition stream_output (name : string) (text : list string) : json :=
  JDict [("name", JStr name); ("output_type", JStr "stream");
         ("text", JList (map JStr text))].

Definition error_output (ename evalue : string) : json :=
  JDict [("ename", JStr ename); ("evalue", JStr evalue);
         ("output_type", JStr "error"); ("traceback", JList [])].

Definition display_output (data : list (string * json)) : json :=
  JDict [("data", JDict data); ("metadata", JDict []);
         ("output_type", JStr "display_data")].

(** One code cell that has not been run: [outputs] is empty. *)
Definition no_output : json :=
  notebook_of [code_dict "c" ["x=1"] JNull []].

(** One code cell that wrote two lines, then one more, to [stdout]. *)
Definition two_streams : json :=
  notebook_of [code_dict "c" ["f()"] (JNum 1)
                 [stream_output "stdout" ["a" +:+ LF; "b" +:+ LF];
                  stream_output "stdout" ["c" +:+ LF]]].

(** One code cell that printed and then raised. *)
Definition print_then_raise : json :=
  notebook_of [code_dict "c" ["f()"] (JNum 1)
                 [stream_output "stdout" ["hi" +:+ LF];
                  error_output "ValueError" "boom"]].

(** One code cell whose image comes second among its outputs. *)
Definition image_second (payload : json) : json :=
  notebook_of [code_dict "c" ["plot()"] (JNum 1)
                 [display_output [("text/plain", JList [JStr "<Figure>"])];
                  display_output [("image/png", payload)]]].

(** One code cell that printed before it displayed an image. *)
Definition print_then_image (payload : json) : json :=
  notebook_of [code_dict "c" ["plot()"] (JNum 1)
                 [stream_output "stdout" ["hi" +:+ LF];
                  display_output [("image/png", payload)]]].

(** One code cell whose single output holds an image. *)
Definition one_image (payload : json) : json :=
  notebook_of [code_dict "c" ["plot()"] (JNum 1)
                 [display_output [("image/png", payload)]]].

(** A 2 x 2 image, every channel value 255. *)
Definition white_2x2 (channels : nat) : V0.pixels :=
  repeat (repeat (repeat 255%N channels) 2) 2.

(** A notebook of one code cell [0] with the single line [x=1]. *)
Definition one_code : V1.Notebook :=
  V1.mkNotebook "4.5"
    [V1.CodeCell (JStr "0") (JStr "code") (JNum 1) (JList [JStr "x=1"])].

End Samples.

(** * More sample values *)

Module Values.

(** [Samples.hi_dict] after [clear_outputs]. *)
Definition hi_cleared : json :=
  Samples.notebook_of
    [Samples.markdown_dict "a" ["Hi" +:+ LF];
     Samples.code_dict "b" ["x=1"] JNull []].

(** The cell dicts of [Samples.hi_dict]. *)
Definition hi_cells : list json :=
  [Samples.markdown_dict "a" ["Hi" +:+ LF];
   Samples.code_dict "b" ["x=1"] (JNum 1) []].

(** What [serialize] returns for [Samples.hi_notebook]. *)
Definition hi_serialized : json :=
  JDict [("cells",
          JList [JDict [("cell_type", JStr "markdown"); ("id", JStr "a");
                        ("medatada", JDict []);
                        ("source", JList [JStr ("Hi" +:+ LF)])];
                 JDict [("cell_type", JStr "code");
                        ("execution_count", JNum 1); ("id", JStr "b");
                        ("medatada", JDict []); ("outputs", JList []);
                        ("source", JList [JStr "x=1"])]]);
         ("metadata", JDict []); ("nbformat", JNum 4);
         ("nbformat_minor", JNum 5)].

(** A notebook of one markdown cell. *)
Definition only_markdown : json :=
  Samples.notebook_of [Samples.markdown_dict "a" ["Hi"]].

(** Two cells of one line each. *)
Definition hi_line : line_cell := mkLineCell true (JStr "0") JNull "Hi".
Definition x_line : line_cell := mkLineCell false (JStr "1") (JNum 1) "x=1".

End Values.

(** * Properties *)

(** ** The error monad and dicts *)

Lemma bind_Ok_inv {A B : Type} (m : res A) (k : A -> res B) (b : B) :
  bind m k = Ok b -> exists a, m = Ok a /\ k a = Ok b.
Proof. destruct m as [a|e]; simpl; [eauto | discriminate]. Qed.

Lemma bind_ret {A : Type} (m : res A) : bind m Ok = m.
Proof. now destruct m. Qed.

Ltac bind_inv H :=
  let a := fresh "a" in
  let E := fresh "E" in
  apply bind_Ok_inv in H; destruct H as (a & E & H).

Lemma dict_get_set_same k v d : dict_get k (dict_set k v d) = Some v.
Proof.
  induction d as [|[k' v'] d IH]; simpl.
  - now rewrite String.eqb_refl.
  - destruct (String.eqb k' k) eqn:E; simpl; rewrite E; auto.
Qed.

Lemma dict_get_set_other k k' v d :
  k <> k' -> dict_get k' (dict_set k v d) = dict_get k' d.
Proof.
  intros Hne. induction d as [|[k0 v0] d IH]; simpl.
  - apply String.eqb_neq in Hne. now rewrite Hne.
  - destruct (String.eqb k0 k) eqn:E; simpl.
    + apply String.eqb_eq in E. subst k0.
      apply String.eqb_neq in Hne. now rewrite Hne.
    + now rewrite IH.
Qed.

Lemma dict_set_id k v d : dict_get k d = Some v -> dict_set k v d = d.
Proof.
  induction d as [|[k0 v0] d IH]; simpl; [discriminate|].
  destruct (String.eqb k0 k) eqn:E.
  - now intros [= ->].
  - intros H. now rewrite IH.
Qed.

Lemma is_str_true v s : is_str v s = true -> v = JStr s.
Proof.
  destruct v; simpl; try discriminate. now intros ->%String.eqb_eq.
Qed.

Lemma getitem_Ok_inv x k v :
  getitem x k = Ok v -> exists d, x = JDict d /\ dict_get k d = Some v.
Proof.
  destruct x; simpl; try discriminate.
  destruct (dict_get k d) eqn:E; [|discriminate].
  intros [= ->]. eauto.
Qed.

(** ** [clear_outputs] *)

Lemma clear_cell_idem c c' :
  V0.clear_cell c = Ok c' -> V0.clear_cell c' = Ok c'.
Proof.
  unfold V0.clear_cell. intros H. bind_inv H.
  apply getitem_Ok_inv in E. destruct E as (d & -> & Hct).
  destruct (is_str a "code") eqn:Hcode.
  - simpl in H. injection H as <-. simpl.
    rewrite !dict_get_set_other, Hct by discriminate. simpl. rewrite Hcode.
    simpl. f_equal. f_equal.
    rewrite (dict_set_id "execution_count" JNull).
    + apply dict_set_id, dict_get_set_same.
    + rewrite dict_get_set_other by discriminate. apply dict_get_set_same.
  - injection H as <-. simpl. rewrite Hct. simpl. now rewrite Hcode.
Qed.

(** [clear_outputs] keeps the type tag of every cell dict it changes. *)
Lemma clear_cell_cell_type c c' :
  V0.clear_cell c = Ok c' -> getitem c' "cell_type" = getitem c "cell_type".
Proof.
  unfold V0.clear_cell. intros H. bind_inv H.
  apply getitem_Ok_inv in E. destruct E as (d & -> & Hct).
  destruct (is_str a "code").
  - simpl in H. injection H as <-. simpl.
    now rewrite !dict_get_set_other by discriminate.
  - now injection H as <-.
Qed.

Lemma clear_cells_idem l l' :
  V0.clear_cells l = Ok l' -> V0.clear_cells l' = Ok l'.
Proof.
  revert l'. induction l as [|c l IH]; simpl; intros l' H.
  - now injection H as <-.
  - bind_inv H. bind_inv H. injection H as <-. simpl.
    rewrite (clear_cell_idem _ _ E). simpl.
    now rewrite (IH _ E0).
Qed.

Lemma clear_outputs_idem ipynb ipynb' :
  V0.clear_outputs ipynb = Ok ipynb' -> V0.clear_outputs ipynb' = Ok ipynb'.
Proof.
  intros H. pose proof H as H0. unfold V0.clear_outputs in H.
  bind_inv H. bind_inv H. bind_inv H.
  apply getitem_Ok_inv in E. destruct E as (d & -> & Hcells).
  destruct a as [| | | |l|]; try (injection H as <-; exact H0).
  simpl in E0. injection E0 as <-.
  simpl in H. injection H as <-.
  unfold V0.clear_outputs. simpl. rewrite dict_get_set_same. simpl.
  rewrite (clear_cells_idem _ _ E1). simpl.
  f_equal. f_equal. apply dict_set_id, dict_get_set_same.
Qed.

(** After [clear_outputs], every code cell has [execution_count] [None]
    and [outputs] [[]]. *)
Lemma clear_cell_cleared c c' :
  V0.clear_cell c = Ok c' ->
  (exists ct, getitem c "cell_type" = Ok ct /\ is_str ct "code" = true) ->
  getitem c' "execution_count" = Ok JNull /\
  getitem c' "outputs" = Ok (JList []).
Proof.
  unfold V0.clear_cell. intros H (ct & Hct & Hcode).
  rewrite Hct in H. simpl in H. rewrite Hcode in H.
  apply getitem_Ok_inv in Hct. destruct Hct as (d & -> & Hct).
  simpl in H. injection H as <-. simpl.
  rewrite dict_get_set_other by discriminate.
  now rewrite !dict_get_set_same.
Qed.

(** A dict with a list of cells, each a dict with a [cell_type], is
    cleared without an exception. *)
Lemma clear_cells_succeeds l :
  Forall has_cell_type l -> exists l', V0.clear_cells l = Ok l'.
Proof.
  induction 1 as [|c l (d & ct & -> & Hct) _ (l' & IH)]; simpl; [eauto|].
  unfold V0.clear_cell. simpl. rewrite Hct. simpl.
  destruct (is_str ct "code"); simpl; rewrite IH; simpl; eauto.
Qed.

Lemma clear_outputs_succeeds d l :
  dict_get "cells" d = Some (JList l) -> Forall has_cell_type l ->
  exists ipynb', V0.clear_outputs (JDict d) = Ok ipynb'.
Proof.
  intros Hd Hl. destruct (clear_cells_succeeds l Hl) as (l' & Hl').
  unfold V0.clear_outputs. simpl. rewrite Hd. simpl. rewrite Hl'. simpl.
  eauto.
Qed.

(** C8: clearing the outputs twice is clearing them once; the second call
    returns what the first returned (and a call that raises, raises). *)
Theorem clear_outputs_idempotent (ipynb : json) :
  bind (V0.clear_outputs ipynb) V0.clear_outputs = V0.clear_outputs ipynb.
Proof.
  destruct (V0.clear_outputs ipynb) as [ipynb'|e] eqn:E; simpl.
  - now apply (clear_outputs_idem ipynb).
  - reflexivity.
Qed.

(** ** The percent format *)

(** C3: on the notebook of the two cells [a] and [b],
    [PyPercentSerializer.to_py_percent] returns exactly the expected text;
    [to_percent] returns it with a newline after the last cell. *)
Theorem percent_scenario :
  V1.to_py_percent Samples.hi_notebook = Ok Samples.hi_percent /\
  V0.to_percent Samples.hi_dict = Ok (Samples.hi_percent +:+ LF).
Proof. split; reflexivity. Qed.

(** C4: on a notebook without cells both emitters raise [IndexError]
    ([ans.pop()] on the empty list) instead of returning the empty text. *)
Theorem percent_empty_raises :
  V0.to_percent Samples.minimal = Raise IndexError /\
  V1.to_py_percent (V1.mkNotebook "4.5" []) = Raise IndexError.
Proof. split; reflexivity. Qed.

(** C10: on the notebook of the two cells [a] and [b] the two emitters
    return different texts. *)
Theorem percent_emitters_differ (py_repr : json -> string) :
  V1.Notebook_init py_repr Samples.hi_dict = Ok Samples.hi_notebook /\
  V0.to_percent Samples.hi_dict <> V1.to_py_percent Samples.hi_notebook.
Proof. split; [reflexivity | discriminate]. Qed.

(** ** The two emitters of the percent format *)

Lemma str_app_cons (c : ascii) (s t : string) :
  String c s +:+ t = String c (s +:+ t).
Proof. reflexivity. Qed.

Lemma str_app_assoc (s t u : string) : (s +:+ t) +:+ u = s +:+ t +:+ u.
Proof.
  induction s as [|c s IH]; [reflexivity|].
  now rewrite !str_app_cons, IH.
Qed.

Lemma str_app_nil_r (s : string) : s +:+ EmptyString = s.
Proof.
  induction s as [|c s IH]; [reflexivity|]. now rewrite str_app_cons, IH.
Qed.

Lemma list_pop_last {A : Type} (l : list A) (x : A) :
  list_pop (l ++ [x]) = Ok l.
Proof.
  unfold list_pop. destruct (l ++ [x]) eqn:E.
  - now destruct l.
  - now rewrite <- E, removelast_last.
Qed.

Lemma py_join_app (a b : list json) :
  py_join (a ++ b)
  = do x <- py_join a ;; do y <- py_join b ;; Ok (x +:+ y).
Proof.
  induction a as [|v a IH]; simpl.
  - now destruct (py_join b).
  - destruct v; try reflexivity. rewrite IH.
    destruct (py_join a); simpl; [|reflexivity].
    destruct (py_join b); simpl; [|reflexivity].
    now rewrite str_app_assoc.
Qed.

Lemma py_percent_cell_chunk (ans : list json) (c : V1.cell) :
  V1.py_percent_cell ans c
  = do ch <- percent_chunk c ;; Ok (ans ++ ch ++ [JStr (LF +:+ LF)]).
Proof.
  unfold V1.py_percent_cell, percent_chunk.
  destruct c as [i ct ec src | ct i src];
    destruct (py_iter src); simpl; try reflexivity;
    now rewrite <- !app_assoc.
Qed.

Lemma percent_cell_chunk (ans : list json) (cells cells' : list V1.cell)
    (dic : json) :
  known_type dic ->
  V1.init_cell cells dic = Ok cells' ->
  exists c, cells' = cells ++ [c] /\
    V0.percent_cell ans dic
    = do ch <- percent_chunk c ;; Ok (ans ++ ch ++ [JStr LF; JStr LF]).
Proof.
  intros (ct & Hct & Hknown) H.
  unfold V1.init_cell in H. rewrite Hct in H. simpl in H.
  unfold V0.percent_cell. rewrite Hct. simpl.
  apply getitem_Ok_inv in Hct. destruct Hct as (d & -> & Hct).
  destruct (is_str ct "code") eqn:Hcode.
  - assert (is_str ct "markdown" = false) as ->.
    { apply is_str_true in Hcode. now subst ct. }
    unfold V1.CodeCell_init in H. simpl in H. rewrite Hct in H.
    destruct (dict_get "id" d); simpl in H; [|discriminate].
    destruct (dict_get "execution_count" d); simpl in H; [|discriminate].
    simpl. destruct (dict_get "source" d) as [src|]; simpl in H;
      [|discriminate].
    injection H as <-. eexists. split; [reflexivity|]. simpl.
    destruct (py_iter src); simpl; [|reflexivity].
    now rewrite <- !app_assoc.
  - simpl in Hknown. rewrite Hknown in *.
    unfold V1.MarkdownCell_init in H. simpl in H. rewrite Hct in H.
    destruct (dict_get "id" d); simpl in H; [|discriminate].
    simpl. destruct (dict_get "source" d) as [src|]; simpl in H;
      [|discriminate].
    injection H as <-. eexists. split; [reflexivity|]. simpl.
    destruct (py_iter src); simpl; [|reflexivity].
    now rewrite <- !app_assoc.
Qed.

Lemma same_upto_separator_join ans0 ans1 :
  same_upto_separator ans0 ans1 -> py_join ans0 = py_join ans1.
Proof.
  intros [[-> ->] | (x0 & x1 & -> & -> & Hx)]; [reflexivity|].
  rewrite !py_join_app, Hx. reflexivity.
Qed.

Lemma same_upto_separator_step ans0 ans1 ch :
  same_upto_separator ans0 ans1 ->
  same_upto_separator (ans0 ++ ch ++ [JStr LF; JStr LF])
                      (ans1 ++ ch ++ [JStr (LF +:+ LF)]).
Proof.
  intros H. right. exists (ans0 ++ ch), (ans1 ++ ch).
  rewrite <- !app_assoc. split; [reflexivity|]. split; [reflexivity|].
  rewrite !py_join_app, (same_upto_separator_join _ _ H). reflexivity.
Qed.

Lemma emitter_loops (dics : list json) :
  Forall known_type dics ->
  forall (cells cells' : list V1.cell) (ans0 ans1 : list json),
    for_each dics V1.init_cell cells = Ok cells' ->
    same_upto_separator ans0 ans1 ->
    exists new, cells' = cells ++ new /\
      same_outcome (for_each dics V0.percent_cell ans0)
                   (for_each new V1.py_percent_cell ans1).
Proof.
  induction 1 as [|dic dics Hdic _ IH]; intros cells cells' ans0 ans1 H Hsame;
    simpl in H.
  - injection H as <-. exists []. now rewrite app_nil_r.
  - bind_inv H.
    destruct (percent_cell_chunk ans0 cells a dic Hdic E) as (c & -> & Hc).
    destruct (IH _ _ (ans0 ++ match percent_chunk c with
                               | Ok ch => ch | Raise _ => [] end
                             ++ [JStr LF; JStr LF])
                     (ans1 ++ match percent_chunk c with
                               | Ok ch => ch | Raise _ => [] end
                             ++ [JStr (LF +:+ LF)]) H) as (new & -> & Hnew).
    { now apply same_upto_separator_step. }
    exists (c :: new). rewrite <- app_assoc. split; [reflexivity|].
    simpl. rewrite Hc, py_percent_cell_chunk.
    destruct (percent_chunk c); simpl; [exact Hnew | reflexivity].
Qed.

(** X23: on a dict whose cells are code and markdown cells, [to_percent]
    returns the text [to_py_percent] returns for the notebook built from
    it, followed by a newline; both raise the same exception otherwise. *)
Lemma to_percent_to_py_percent (py_repr : json -> string) (ipynb cells_v : json)
    (dics : list json) (nb : V1.Notebook) :
  getitem ipynb "cells" = Ok cells_v ->
  py_iter cells_v = Ok dics ->
  Forall known_type dics ->
  V1.Notebook_init py_repr ipynb = Ok nb ->
  V0.to_percent ipynb = do s <- V1.to_py_percent nb ;; Ok (s +:+ LF).
Proof.
  intros Hcells Hiter Hknown H.
  unfold V1.Notebook_init in H. repeat bind_inv H.
  rewrite Hcells in E1. injection E1 as <-.
  rewrite Hiter in E2. injection E2 as <-.
  injection H as <-.
  destruct (emitter_loops dics Hknown [] _ [] [] E3) as (new & -> & Hout).
  { now left. }
  unfold V0.to_percent, V1.to_py_percent. rewrite Hcells. simpl.
  rewrite Hiter. simpl.
  destruct (for_each dics V0.percent_cell []) as [ans0|e0];
    destruct (for_each new V1.py_percent_cell []) as [ans1|e1];
    simpl in Hout; try contradiction; simpl.
  - destruct Hout as [[-> ->] | (x0 & x1 & -> & -> & Hx)]; [reflexivity|].
    change [JStr LF; JStr LF] with ([JStr LF] ++ [JStr LF]).
    rewrite app_assoc, !list_pop_last. simpl. rewrite py_join_app, Hx.
    destruct (py_join x1); reflexivity.
  - now subst.
Qed.

(** ** Extraction of outputs *)

(** C5: [get_stream] raises [IndexError] on a code cell without outputs,
    and of two stream outputs of a cell it returns the first line of the
    first one only. *)
Theorem get_stream_first_only (py_repr : json -> string) :
  V0.get_stream py_repr Samples.no_output true false = Raise IndexError /\
  V0.get_stream py_repr Samples.two_streams true false = Ok ("a" +:+ LF).
Proof. split; reflexivity. Qed.

(** C6: [get_exceptions] returns no error for a cell whose second output
    is an error output. *)
Theorem get_exceptions_first_only (py_repr : json -> string) (exn : Type)
    (py_eval : string -> res exn) :
  V0.get_exceptions py_repr exn py_eval Samples.print_then_raise = Ok [].
Proof. reflexivity. Qed.

(** C7: [get_images] returns no image for a cell whose image is its
    second output, and raises [KeyError] when the first output is a stream
    output. *)
Theorem get_images_first_only (png_array : json -> res V0.pixels)
    (payload : json) :
  V0.get_images png_array (Samples.image_second payload) = Ok [] /\
  V0.get_images png_array (Samples.print_then_image payload)
    = Raise (KeyError "data").
Proof. split; reflexivity. Qed.

(** For a single code cell whose single output holds an image,
    [get_images] returns what the decoder returns for its payload. *)
Lemma get_images_one_image (png_array : json -> res V0.pixels) (payload : json) :
  V0.get_images png_array (Samples.one_image payload)
  = bind (png_array payload) (fun arr => Ok [arr]).
Proof.
  unfold V0.get_images, Samples.one_image, Samples.notebook_of. simpl.
  unfold V0.image_cell. simpl.
  now destruct (png_array payload).
Qed.

Lemma get_images_white_2x2 (png_array : json -> res V0.pixels) (payload : json)
    (channels : nat) :
  png_array payload = Ok (Samples.white_2x2 channels) ->
  V0.get_images png_array (Samples.one_image payload)
  = Ok [Samples.white_2x2 channels].
Proof. intros H. rewrite get_images_one_image, H. reflexivity. Qed.

(** ** Cell kinds under the transforms *)

Lemma markdownize_cell_lookup (h : gmap nat V2.cell) (x a : nat) :
  V2.markdownize_cell h x !! a
  = if decide (x = a) then V2.set_class_markdown <$> h !! a else h !! a.
Proof.
  unfold V2.markdownize_cell. rewrite lookup_alter.
  destruct (decide (x = a)) as [->|Hne]; [|done].
  destruct (h !! a) as [c|]; [|done]. simpl. unfold V2.isinstance_CodeCell.
  now destruct (V2.cell_class c).
Qed.

Lemma set_class_markdown_idem c :
  V2.set_class_markdown (V2.set_class_markdown c) = V2.set_class_markdown c.
Proof. reflexivity. Qed.

Lemma markdownize_lookup (l : list nat) (h : gmap nat V2.cell) (a : nat) :
  foldl V2.markdownize_cell h l !! a
  = if decide (a ∈ l) then V2.set_class_markdown <$> h !! a else h !! a.
Proof.
  revert h. induction l as [|x l IH]; intros h; cbn [foldl].
  - rewrite decide_False; [done | apply not_elem_of_nil].
  - rewrite IH, markdownize_cell_lookup.
    destruct (decide (x = a)) as [->|Hne].
    + rewrite (decide_True (P := a ∈ a :: l)) by (apply elem_of_cons; auto).
      destruct (decide (a ∈ l)); [|done].
      destruct (h !! a); [|done]. simpl. now rewrite set_class_markdown_idem.
    + destruct (decide (a ∈ l)) as [Hin|Hnin].
      * rewrite decide_True; [done | apply elem_of_cons; auto].
      * rewrite decide_False; [done|].
        intros [?|?]%elem_of_cons; congruence.
Qed.

(** C9, as stated: [markdownize] would keep the class of every cell
    object.  It does not: a code cell of the notebook is a markdown cell
    afterwards. *)
Lemma markdownize_changes_class :
  ~ (forall (h : gmap nat V2.cell) (nb : V2.NotebookRef) (a : nat)
            (c : V2.cell),
        h !! a = Some c ->
        V2.cell_class <$> (fst (V2.markdownize nb h) !! a)
        = Some (V2.cell_class c)).
Proof.
  intros H.
  specialize (H {[ 0 := V2.CodeCell (JStr "b") (JList [JStr "x=1"]) (JNum 1) ]}
                (V2.mkNotebookRef "4.5" [0]) 0
                (V2.CodeCell (JStr "b") (JList [JStr "x=1"]) (JNum 1))
                (lookup_singleton_eq _ _)).
  simpl in H. rewrite markdownize_cell_lookup in H.
  rewrite decide_True in H by done.
  rewrite lookup_singleton_eq in H. simpl in H. discriminate.
Qed.

(** C9, amended: [markdownize] sets the class of every cell of the
    notebook to [MarkdownCell] in place and keeps its identifier, source
    and execution count; it leaves the cells outside the notebook as they
    are, and [remove_markdown_cells] writes no cell at all. *)
Theorem class_after_transforms (h : gmap nat V2.cell) (nb : V2.NotebookRef)
    (a : nat) (c : V2.cell) :
  h !! a = Some c ->
  (exists c', fst (V2.markdownize nb h) !! a = Some c' /\
     V2.id c' = V2.id c /\ V2.source c' = V2.source c /\
     V2.execution_count c' = V2.execution_count c /\
     V2.cell_class c'
       = (if decide (a ∈ V2.ref_cells nb) then V2.MarkdownCellClass
          else V2.cell_class c)) /\
  fst (V2.remove_markdown_cells nb h) !! a = Some c.
Proof.
  intros Ha. split; [|exact Ha].
  unfold V2.markdownize. simpl. rewrite markdownize_lookup, Ha.
  destruct (decide (a ∈ V2.ref_cells nb)); simpl; eexists; eauto.
Qed.

Lemma class_after_transforms_witness :
  let c := V2.CodeCell (JStr "b") (JList [JStr "x=1"]) (JNum 1) in
  let h : gmap nat V2.cell := {[ 0 := c ]} in
  let nb := V2.mkNotebookRef "4.5" [0] in
  h !! 0 = Some c /\
  ((exists c', fst (V2.markdownize nb h) !! 0 = Some c' /\
      V2.id c' = V2.id c /\ V2.source c' = V2.source c /\
      V2.execution_count c' = V2.execution_count c /\
      V2.cell_class c'
        = (if decide (0 ∈ V2.ref_cells nb) then V2.MarkdownCellClass
           else V2.cell_class c)) /\
   fst (V2.remove_markdown_cells nb h) !! 0 = Some c).
Proof.
  intros c h nb. split.
  - reflexivity.
  - apply (class_after_transforms h nb 0 c). reflexivity.
Defined.

(** ** Decimal strings *)

Lemma digits_string_of_uint u :
  str_forall is_digit (NilEmpty.string_of_uint u) = true.
Proof. induction u; simpl; auto. Qed.

Lemma digits_NilZero u :
  str_forall is_digit (NilZero.string_of_uint u) = true /\
  NilZero.string_of_uint u <> EmptyString.
Proof.
  destruct u; simpl; split; try discriminate; auto using digits_string_of_uint.
Qed.

Lemma digit_char c :
  is_digit c = true ->
  is_space c = false /\ Ascii.eqb c "_" = false /\ Ascii.eqb c "." = false /\
  Ascii.eqb c "-" = false /\ Ascii.eqb c "+" = false.
Proof.
  destruct c as [[] [] [] [] [] [] [] []]; vm_compute; intros H;
    try discriminate H; repeat split.
Qed.

Lemma str_forall_impl (P Q : ascii -> bool) s :
  (forall c, P c = true -> Q c = true) ->
  str_forall P s = true -> str_forall Q s = true.
Proof.
  intros HPQ. induction s as [|c t IH]; simpl; [done|].
  intros [Hc Ht]%andb_true_iff. rewrite (HPQ _ Hc). simpl. auto.
Qed.

Lemma str_rstrip_id s :
  str_forall (fun c => negb (is_space c)) s = true -> str_rstrip s = s.
Proof.
  induction s as [|c t IH]; simpl; [done|].
  intros [Hc Ht]%andb_true_iff. rewrite (IH Ht).
  apply negb_true_iff in Hc. rewrite Hc. now destruct t.
Qed.

Lemma drop_underscores_digits s :
  str_forall is_digit s = true -> drop_underscores true s = Some s.
Proof.
  induction s as [|c t IH]; simpl; [done|].
  intros [Hc Ht]%andb_true_iff.
  destruct (digit_char c Hc) as (_ & -> & _). now rewrite (IH Ht).
Qed.

Lemma uint_of_str_digits u :
  uint_of_str (NilZero.string_of_uint u) = Ok (Z.of_uint u).
Proof.
  destruct (digits_NilZero u) as [Hd Hne]. unfold uint_of_str.
  destruct (NilZero.string_of_uint u) as [|c t] eqn:E; [done|].
  simpl in Hd. apply andb_true_iff in Hd. destruct Hd as [Hc Ht].
  cbn [drop_underscores]. destruct (digit_char c Hc) as (_ & -> & _).
  rewrite (drop_underscores_digits t Ht). cbn [option_map]. rewrite <- E.
  destruct u; try (simpl; rewrite ?NilEmpty.usu; reflexivity).
Qed.

Lemma no_space_digits s :
  str_forall is_digit s = true ->
  str_forall (fun c => negb (is_space c)) s = true.
Proof.
  apply str_forall_impl. intros c Hc.
  destruct (digit_char c Hc) as (-> & _). reflexivity.
Qed.

Lemma int_of_str_digits u :
  int_of_str (NilZero.string_of_uint u) = Ok (Z.of_uint u).
Proof.
  destruct (digits_NilZero u) as [Hd Hne]. unfold int_of_str.
  rewrite <- (uint_of_str_digits u).
  destruct (NilZero.string_of_uint u) as [|c t] eqn:E; [done|].
  pose proof Hd as Hd'. simpl in Hd'. apply andb_true_iff in Hd'.
  destruct Hd' as [Hc Ht].
  destruct (digit_char c Hc) as (Hsp & _ & _ & Hm & Hp).
  cbn [str_lstrip]. rewrite Hsp.
  rewrite (str_rstrip_id _ (no_space_digits _ Hd)).
  now rewrite Hm, Hp.
Qed.

Lemma int_of_str_minus_digits u :
  int_of_str (String "-" (NilZero.string_of_uint u)) = Ok (- Z.of_uint u)%Z.
Proof.
  destruct (digits_NilZero u) as [Hd Hne]. unfold int_of_str.
  cbn [str_lstrip]. change (is_space "-") with false. cbv iota.
  rewrite str_rstrip_id.
  - change (Ascii.eqb "-" "-") with true. cbv iota.
    now rewrite uint_of_str_digits.
  - simpl. now apply no_space_digits.
Qed.

(** [int(str(z))] is [z]. *)
Lemma int_of_str_of_Z z : int_of_str (str_of_Z z) = Ok z.
Proof.
  unfold str_of_Z. rewrite <- (DecimalZ.of_to z) at 2.
  destruct (Z.to_int z) as [u|u]; simpl NilZero.string_of_int.
  - apply int_of_str_digits.
  - apply int_of_str_minus_digits.
Qed.

Lemma str_of_Z_no_dot z :
  str_forall (fun c => negb (Ascii.eqb c ".")) (str_of_Z z) = true.
Proof.
  unfold str_of_Z.
  assert (Hd : forall u, str_forall (fun c => negb (Ascii.eqb c "."))
                           (NilZero.string_of_uint u) = true).
  { intros u. destruct (digits_NilZero u) as [Hd _]. revert Hd.
    apply str_forall_impl. intros c Hc.
    destruct (digit_char c Hc) as (_ & _ & -> & _). reflexivity. }
  destruct (Z.to_int z) as [u|u]; simpl NilZero.string_of_int.
  - apply Hd.
  - simpl. apply Hd.
Qed.

Lemma str_split_no_sep sep s :
  str_forall (fun c => negb (Ascii.eqb c sep)) s = true ->
  str_split sep s = [s].
Proof.
  induction s as [|c t IH]; simpl; [done|].
  intros [Hc Ht]%andb_true_iff. apply negb_true_iff in Hc.
  now rewrite Hc, (IH Ht).
Qed.

Lemma str_split_app sep s t :
  str_forall (fun c => negb (Ascii.eqb c sep)) s = true ->
  str_split sep (s +:+ String sep t) = s :: str_split sep t.
Proof.
  induction s as [|c s IH]; simpl.
  - intros _. now rewrite Ascii.eqb_refl.
  - intros [Hc Hs]%andb_true_iff. apply negb_true_iff in Hc.
    now rewrite Hc, (IH Hs).
Qed.

(** The version [f"{major}.{minor}"] splits into its two numbers. *)
Lemma split_version major minor :
  str_split "." (str_of_Z major +:+ "." +:+ str_of_Z minor)
  = [str_of_Z major; str_of_Z minor].
Proof.
  change ("." +:+ str_of_Z minor) with (String "." (str_of_Z minor)).
  rewrite str_split_app by apply str_of_Z_no_dot.
  now rewrite str_split_no_sep by apply str_of_Z_no_dot.
Qed.

(** ** The tree of records: serialize, then load *)

Lemma load_serialized_cell (acc : list V2.cell) (c : V1.cell) :
  wf_cell c ->
  exists c', V2.load_cell acc (V1.serialize_cell c) = Ok (acc ++ [c']) /\
             same_cell c c'.
Proof.
  destruct c as [i ct ec src | ct i src]; simpl; intros ->.
  - exists (V2.CodeCell i src ec). split; [reflexivity | now repeat split].
  - exists (V2.MarkdownCell i src). split; [reflexivity | now repeat split].
Qed.

Lemma load_serialized_cells (cells : list V1.cell) (acc : list V2.cell) :
  Forall wf_cell cells ->
  exists cells',
    for_each (map V1.serialize_cell cells) V2.load_cell acc
    = Ok (acc ++ cells') /\
    Forall2 same_cell cells cells'.
Proof.
  intros Hwf. revert acc.
  induction Hwf as [|c cells Hc _ IH]; intros acc; simpl.
  - exists []. rewrite app_nil_r. split; [reflexivity | constructor].
  - destruct (load_serialized_cell acc c Hc) as (c' & -> & Hsame). simpl.
    destruct (IH (acc ++ [c'])) as (cells' & -> & Hall).
    exists (c' :: cells'). rewrite <- app_assoc. split; [reflexivity|].
    now constructor.
Qed.

(** C2: a notebook whose version is [major.minor] and whose cells carry
    the type tag of their class is serialized to a dict that holds the
    two numbers of the version, and loading that dict gives a notebook
    with the same version and, cell by cell, the same identifier, kind
    and source. *)
Theorem serialize_load_roundtrip (py_repr : json -> string)
    (nb : V1.Notebook) (major minor : Z) :
  V1.version nb = str_of_Z major +:+ "." +:+ str_of_Z minor ->
  Forall wf_cell (V1.cells nb) ->
  exists (d : json) (nb' : V2.Notebook),
    V1.serialize nb = Ok d /\
    getitem d "nbformat" = Ok (JNum major) /\
    getitem d "nbformat_minor" = Ok (JNum minor) /\
    V2.NotebookLoader_load py_repr d = Ok nb' /\
    V2.version nb' = V1.version nb /\
    Forall2 same_cell (V1.cells nb) (V2.cells nb').
Proof.
  intros Hv Hwf.
  destruct (load_serialized_cells (V1.cells nb) [] Hwf) as (cells' & Hl & Hs).
  unfold V1.serialize. rewrite Hv, split_version. simpl.
  rewrite !int_of_str_of_Z. simpl.
  eexists.
  exists (V2.mkNotebook (str_of_Z major +:+ "." +:+ str_of_Z minor) cells').
  split; [reflexivity|]. split; [reflexivity|]. split; [reflexivity|].
  split; [|split; [reflexivity | exact Hs]].
  unfold V2.NotebookLoader_load. simpl. now rewrite Hl.
Qed.

Lemma serialize_load_roundtrip_witness :
  V1.version Samples.hi_notebook = str_of_Z 4 +:+ "." +:+ str_of_Z 5 /\
  Forall wf_cell (V1.cells Samples.hi_notebook) /\
  exists (d : json) (nb' : V2.Notebook),
    V1.serialize Samples.hi_notebook = Ok d /\
    getitem d "nbformat" = Ok (JNum 4) /\
    getitem d "nbformat_minor" = Ok (JNum 5) /\
    V2.NotebookLoader_load (fun _ => EmptyString) d = Ok nb' /\
    V2.version nb' = V1.version Samples.hi_notebook /\
    Forall2 same_cell (V1.cells Samples.hi_notebook) (V2.cells nb').
Proof.
  assert (Hv : V1.version Samples.hi_notebook
               = str_of_Z 4 +:+ "." +:+ str_of_Z 5) by reflexivity.
  assert (Hc : Forall wf_cell (V1.cells Samples.hi_notebook)).
  { simpl. repeat constructor. }
  split; [exact Hv|]. split; [exact Hc|].
  exact (serialize_load_roundtrip (fun _ => EmptyString)
           Samples.hi_notebook 4 5 Hv Hc).
Defined.

(** [Notebook.__init__] builds such notebooks from a dict whose format
    numbers are integers. *)
Lemma init_cell_wf (acc acc' : list V1.cell) (dic : json) :
  Forall wf_cell acc -> V1.init_cell acc dic = Ok acc' -> Forall wf_cell acc'.
Proof.
  intros Hacc H. unfold V1.init_cell in H.
  destruct (getitem dic "cell_type") as [ct|] eqn:Hct; [|discriminate].
  apply getitem_Ok_inv in Hct. destruct Hct as (d & -> & Hct).
  simpl in H. destruct (is_str ct "code") eqn:Hcode.
  - apply is_str_true in Hcode. subst ct.
    unfold V1.CodeCell_init in H. simpl in H. rewrite Hct in H.
    destruct (dict_get "id" d); simpl in H; [|discriminate].
    destruct (dict_get "execution_count" d); simpl in H; [|discriminate].
    destruct (dict_get "source" d); simpl in H; [|discriminate].
    injection H as <-. apply Forall_app. split; [done|].
    now repeat constructor.
  - destruct (is_str ct "markdown") eqn:Hmd.
    + apply is_str_true in Hmd. subst ct.
      unfold V1.MarkdownCell_init in H. simpl in H. rewrite Hct in H.
      destruct (dict_get "id" d); simpl in H; [|discriminate].
      destruct (dict_get "source" d); simpl in H; [|discriminate].
      injection H as <-. apply Forall_app. split; [done|].
      now repeat constructor.
    + now injection H as <-.
Qed.

Lemma init_cells_wf (dics : list json) (acc cells : list V1.cell) :
  Forall wf_cell acc ->
  for_each dics V1.init_cell acc = Ok cells -> Forall wf_cell cells.
Proof.
  revert acc. induction dics as [|dic dics IH]; simpl; intros acc Hacc H.
  - now injection H as <-.
  - bind_inv H. apply (IH a); [|exact H].
    now apply (init_cell_wf acc a dic).
Qed.

Lemma Notebook_init_wf (py_repr : json -> string) (ipynb : json)
    (nb : V1.Notebook) (major minor : Z) :
  getitem ipynb "nbformat" = Ok (JNum major) ->
  getitem ipynb "nbformat_minor" = Ok (JNum minor) ->
  V1.Notebook_init py_repr ipynb = Ok nb ->
  V1.version nb = str_of_Z major +:+ "." +:+ str_of_Z minor /\
  Forall wf_cell (V1.cells nb).
Proof.
  intros Hmaj Hmin H. unfold V1.Notebook_init in H.
  rewrite Hmaj, Hmin in H. simpl in H. repeat bind_inv H.
  injection H as <-. simpl. split; [reflexivity|].
  now apply (init_cells_wf a0 [] a1).
Qed.

(** ** The percent loader *)

Lemma list_item_lt {A : Type} (l : list A) (i : nat) :
  i < length l -> exists x, list_item l i = Ok x.
Proof.
  intros Hi. unfold list_item.
  destruct (nth_error l i) eqn:E; [eauto|].
  apply nth_error_None in E. lia.
Qed.

Section LoaderTotal.

Variable lines : list string.
Local Abbreviation l := (length lines).

Lemma markdown_block_total fuel counter acc :
  l - 1 - counter <= fuel ->
  exists counter' acc',
    V2.markdown_block fuel lines l counter acc = Ok (counter', acc') /\
    counter <= counter'.
Proof.
  revert counter acc. induction fuel as [|fuel IH]; intros counter acc Hf;
    cbn [V2.markdown_block].
  - destruct (Nat.ltb_spec counter (l - 1)); [lia|]. eauto.
  - destruct (Nat.ltb_spec counter (l - 1)) as [Hlt|]; [|eauto].
    destruct (list_item_lt lines counter) as (line & ->); [lia|].
    simpl. destruct (String.eqb line LF).
    + eexists _, _. split; [reflexivity | lia].
    + destruct (ends_with_LF line);
        (edestruct (IH (counter + 1)) as (c' & acc' & -> & Hc'); [lia|]);
        eexists _, _; (split; [reflexivity | lia]).
Qed.

Lemma code_block_total fuel counter acc :
  l - 1 - counter <= fuel ->
  exists counter' acc',
    V2.code_block fuel lines l counter acc = Ok (counter', acc') /\
    counter <= counter'.
Proof.
  revert counter acc. induction fuel as [|fuel IH]; intros counter acc Hf;
    cbn [V2.code_block].
  - destruct (Nat.ltb_spec counter (l - 1)); [lia|]. eauto.
  - destruct (Nat.ltb_spec counter (l - 1)) as [Hlt|]; [|eauto].
    destruct (list_item_lt lines counter) as (line & ->); [lia|].
    simpl. destruct (String.eqb line LF).
    + eexists _, _. split; [reflexivity | lia].
    + destruct (ends_with_LF line);
        (edestruct (IH (counter + 1)) as (c' & acc' & -> & Hc'); [lia|]);
        eexists _, _; (split; [reflexivity | lia]).
Qed.

Lemma load_loop_total fuel counter id cells :
  l - 1 - counter <= fuel ->
  exists cells', V2.load_loop fuel lines l counter id cells = Ok cells'.
Proof.
  revert counter id cells.
  induction fuel as [|fuel IH]; intros counter id cells Hf;
    cbn [V2.load_loop].
  - destruct (Nat.ltb_spec counter (l - 1)); [lia|]. eauto.
  - destruct (Nat.ltb_spec counter (l - 1)) as [Hlt|]; [|eauto].
    destruct (list_item_lt lines counter) as (line & ->); [lia|].
    simpl. destruct (str_contains "markdown" line).
    + destruct (markdown_block_total l (counter + 1) [])
        as (c' & acc' & -> & Hc'); [lia|].
      simpl. apply IH. lia.
    + destruct (code_block_total l (counter + 1) [])
        as (c' & acc' & -> & Hc'); [lia|].
      simpl. apply IH. lia.
Qed.

End LoaderTotal.

(** [PyPercentLoader.load] returns a notebook on every list of lines: the
    loops end within the budget of iterations they are run with. *)
Lemma load_total (version : string) (lines : list string) :
  exists nb, V2.load_lines version lines = Ok nb.
Proof.
  unfold V2.load_lines.
  destruct (load_loop_total lines (length lines) 0 0%Z []) as (cells & ->);
    [lia|].
  simpl. eauto.
Qed.

Section LoaderLastLine.

Variables lines1 lines2 : list string.
Variable l : nat.
Hypothesis agree :
  forall i, i < l - 1 -> list_item lines1 i = list_item lines2 i.

Lemma markdown_block_agree fuel counter acc :
  V2.markdown_block fuel lines1 l counter acc
  = V2.markdown_block fuel lines2 l counter acc.
Proof.
  revert counter acc. induction fuel as [|fuel IH]; intros counter acc;
    cbn [V2.markdown_block]; [reflexivity|].
  destruct (Nat.ltb_spec counter (l - 1)) as [Hlt|]; [|reflexivity].
  rewrite (agree counter Hlt).
  destruct (list_item lines2 counter) as [line|]; [|reflexivity]. simpl.
  now rewrite !IH.
Qed.

Lemma code_block_agree fuel counter acc :
  V2.code_block fuel lines1 l counter acc
  = V2.code_block fuel lines2 l counter acc.
Proof.
  revert counter acc. induction fuel as [|fuel IH]; intros counter acc;
    cbn [V2.code_block]; [reflexivity|].
  destruct (Nat.ltb_spec counter (l - 1)) as [Hlt|]; [|reflexivity].
  rewrite (agree counter Hlt).
  destruct (list_item lines2 counter) as [line|]; [|reflexivity]. simpl.
  now rewrite !IH.
Qed.

Lemma load_loop_agree fuel counter id cells :
  V2.load_loop fuel lines1 l counter id cells
  = V2.load_loop fuel lines2 l counter id cells.
Proof.
  revert counter id cells.
  induction fuel as [|fuel IH]; intros counter id cells;
    cbn [V2.load_loop]; [reflexivity|].
  destruct (Nat.ltb_spec counter (l - 1)) as [Hlt|]; [|reflexivity].
  rewrite (agree counter Hlt).
  destruct (list_item lines2 counter) as [line|]; [|reflexivity]. simpl.
  rewrite markdown_block_agree, code_block_agree.
  destruct (str_contains "markdown" line).
  - destruct (V2.markdown_block l lines2 l (counter + 1) []); simpl;
      [apply IH | reflexivity].
  - destruct (V2.code_block l lines2 l (counter + 1) []); simpl;
      [apply IH | reflexivity].
Qed.

End LoaderLastLine.

(** X24: the loops stop at [l - 1]: the last line of the file is never read,
    and the notebook loaded does not depend on it. *)
Lemma load_ignores_last_line (version : string) (lines : list string)
    (last1 last2 : string) :
  V2.load_lines version (lines ++ [last1])
  = V2.load_lines version (lines ++ [last2]).
Proof.
  unfold V2.load_lines. rewrite !length_app. simpl.
  rewrite (load_loop_agree (lines ++ [last1]) (lines ++ [last2])); [done|].
  intros i Hi. unfold list_item.
  rewrite !nth_error_app1 by lia. reflexivity.
Qed.

(** ** Writing single-line cells *)

Lemma str_forall_app P s t :
  str_forall P (s +:+ t) = str_forall P s && str_forall P t.
Proof.
  induction s as [|c s IH]; [reflexivity|].
  rewrite str_app_cons. simpl. now rewrite IH, andb_assoc.
Qed.

Lemma join_strs_app (l1 l2 : list string) :
  join_strs (l1 ++ l2) = join_strs l1 +:+ join_strs l2.
Proof.
  induction l1 as [|s l1 IH]; [reflexivity|].
  simpl. now rewrite IH, str_app_assoc.
Qed.

Lemma py_percent_cell_lines (ans : list json) (x : line_cell) :
  exists new,
    V1.py_percent_cell ans (v1_cell x) = Ok (ans ++ new ++ [JStr (LF +:+ LF)]) /\
    py_join new = Ok (marker_line x +:+ source_line x).
Proof.
  rewrite py_percent_cell_chunk. unfold v1_cell, marker_line, source_line.
  destruct (lc_markdown x); simpl.
  - exists [JStr ("# %% [markdown]" +:+ LF); JStr "# "; JStr (lc_line x)].
    split; [reflexivity|]. simpl. now rewrite str_app_nil_r.
  - exists [JStr ("# %%" +:+ LF); JStr (lc_line x)].
    split; [reflexivity|]. simpl. now rewrite str_app_nil_r.
Qed.

Lemma for_each_py_percent (xs : list line_cell) (ans : list json) :
  exists new,
    for_each (map v1_cell xs) V1.py_percent_cell ans = Ok (ans ++ new) /\
    py_join new = Ok (join_strs (flat_map cell_lines xs)).
Proof.
  revert ans. induction xs as [|x xs IH]; intros ans; simpl.
  - exists []. now rewrite app_nil_r.
  - destruct (py_percent_cell_lines ans x) as (new & -> & Hnew). simpl.
    destruct (IH (ans ++ new ++ [JStr (LF +:+ LF)])) as (rest & -> & Hrest).
    exists (new ++ [JStr (LF +:+ LF)] ++ rest).
    split; [now rewrite <- !app_assoc|].
    rewrite !py_join_app, Hnew, Hrest. simpl.
    now rewrite !str_app_assoc.
Qed.

Lemma for_each_app {A S : Type} (l1 l2 : list A) (body : S -> A -> res S)
    (s : S) :
  for_each (l1 ++ l2) body s = bind (for_each l1 body s) (for_each l2 body).
Proof.
  revert s. induction l1 as [|a l1 IH]; intros s; simpl; [reflexivity|].
  destruct (body s a); simpl; [apply IH | reflexivity].
Qed.

(** The text written for cells of one line each. *)
Lemma to_py_percent_lines (version : string) (xs : list line_cell)
    (x : line_cell) :
  V1.to_py_percent (V1.mkNotebook version (map v1_cell (xs ++ [x])))
  = Ok (join_strs (flat_map cell_lines xs ++ last_cell_lines x)).
Proof.
  unfold V1.to_py_percent. simpl. rewrite map_app. simpl.
  destruct (for_each_py_percent xs []) as (new & Hxs & Hnew). simpl in Hxs.
  rewrite for_each_app, Hxs. simpl.
  destruct (py_percent_cell_lines new x) as (lastnew & -> & Hlast). simpl.
  rewrite app_assoc, list_pop_last. simpl.
  rewrite py_join_app, Hnew, Hlast. simpl.
  rewrite join_strs_app. simpl. now rewrite str_app_nil_r.
Qed.

(** ** Reading the text back *)

Lemma universal_newlines_id (t : string) :
  str_forall not_CR t = true -> V2.universal_newlines t = t.
Proof.
  induction t as [|c t IH]; simpl; [done|].
  intros [Hc Ht]%andb_true_iff. apply negb_true_iff in Hc.
  now rewrite Hc, (IH Ht).
Qed.

Lemma no_newline_not_CR (s : string) :
  str_forall no_newline s = true -> str_forall not_CR s = true.
Proof.
  apply str_forall_impl. intros c [_ H]%andb_true_iff. exact H.
Qed.

Lemma no_newline_not_LF (s : string) :
  str_forall no_newline s = true -> str_forall not_LF s = true.
Proof.
  apply str_forall_impl. intros c [H _]%andb_true_iff. exact H.
Qed.

Lemma terminated_not_CR (s : string) :
  terminated s -> str_forall not_CR s = true.
Proof.
  intros (body & -> & Hb). rewrite str_forall_app.
  now rewrite (no_newline_not_CR _ Hb).
Qed.

Lemma join_strs_not_CR (ls : list string) :
  Forall (fun s => str_forall not_CR s = true) ls ->
  str_forall not_CR (join_strs ls) = true.
Proof.
  induction 1 as [|s ls Hs _ IH]; simpl; [done|].
  now rewrite str_forall_app, Hs, IH.
Qed.

Lemma split_lines_body (body rest : string) :
  str_forall not_LF body = true ->
  V2.split_lines (body +:+ LF +:+ rest)
  = (body +:+ LF) :: V2.split_lines rest.
Proof.
  induction body as [|c body IH]; intros Hb.
  - reflexivity.
  - simpl in Hb. apply andb_true_iff in Hb. destruct Hb as [Hc Hb].
    apply negb_true_iff in Hc. rewrite !str_app_cons. simpl.
    now rewrite Hc, (IH Hb).
Qed.

Lemma split_lines_last (s : string) :
  str_forall not_LF s = true -> s <> EmptyString -> V2.split_lines s = [s].
Proof.
  induction s as [|c s IH]; [done|]. simpl.
  intros [Hc Hs]%andb_true_iff _. apply negb_true_iff in Hc. rewrite Hc.
  destruct s as [|c' s]; [reflexivity|].
  now rewrite (IH Hs).
Qed.

Lemma split_lines_join (ls : list string) (rest : string) :
  Forall terminated ls ->
  V2.split_lines (join_strs ls +:+ rest) = ls ++ V2.split_lines rest.
Proof.
  induction 1 as [|s ls (body & -> & Hb) _ IH]; simpl; [done|].
  rewrite !str_app_assoc, split_lines_body by now apply no_newline_not_LF.
  now rewrite IH.
Qed.

(** A text made of terminated lines and a last line without newline is
    read as these lines. *)
Lemma readlines_join (ls : list string) (last : string) :
  Forall terminated ls ->
  str_forall no_newline last = true -> last <> EmptyString ->
  V2.readlines (join_strs (ls ++ [last])) = ls ++ [last].
Proof.
  intros Hls Hlast Hne. unfold V2.readlines.
  rewrite universal_newlines_id.
  - rewrite join_strs_app, split_lines_join by done. simpl.
    rewrite str_app_nil_r.
    now rewrite split_lines_last by (auto using no_newline_not_LF).
  - apply join_strs_not_CR. apply Forall_app. split.
    + eapply Forall_impl; [exact Hls|]. apply terminated_not_CR.
    + constructor; [now apply no_newline_not_CR | constructor].
Qed.

Lemma terminated_marker (x : line_cell) : terminated (marker_line x).
Proof.
  unfold marker_line. destruct (lc_markdown x); eexists; split;
    reflexivity.
Qed.

Lemma source_line_no_newline (x : line_cell) :
  plain_line x -> str_forall no_newline (source_line x) = true.
Proof.
  intros [Hx _]. unfold source_line. destruct (lc_markdown x); [|done].
  now rewrite str_forall_app, Hx.
Qed.

Lemma source_line_nonempty (x : line_cell) :
  plain_line x -> source_line x <> EmptyString.
Proof.
  intros [_ Hx]. unfold source_line.
  destruct (lc_markdown x); [discriminate | now apply Hx].
Qed.

Lemma terminated_cell_lines (xs : list line_cell) :
  Forall plain_line xs -> Forall terminated (flat_map cell_lines xs).
Proof.
  induction 1 as [|x xs Hx _ IH]; simpl; [constructor|].
  repeat constructor; [apply terminated_marker | | | exact IH].
  - exists (source_line x). split; [done | now apply source_line_no_newline].
  - exists EmptyString. now split.
Qed.

(** The lines read from the text written for cells of one line each. *)
Lemma readlines_cell_lines (xs : list line_cell) (x : line_cell) :
  Forall plain_line xs -> plain_line x ->
  V2.readlines (join_strs (flat_map cell_lines xs ++ last_cell_lines x))
  = flat_map cell_lines xs ++ last_cell_lines x.
Proof.
  intros Hxs Hx. unfold last_cell_lines.
  change [marker_line x; source_line x]
    with ([marker_line x] ++ [source_line x]).
  rewrite !app_assoc. apply readlines_join.
  - apply Forall_app. split; [now apply terminated_cell_lines|].
    constructor; [apply terminated_marker | constructor].
  - now apply source_line_no_newline.
  - now apply source_line_nonempty.
Qed.

(** ** Loading the lines of single-line cells *)

Lemma list_item_app_here {A : Type} (pre post : list A) (x : A) :
  list_item (pre ++ x :: post) (length pre) = Ok x.
Proof.
  unfold list_item. rewrite nth_error_app2 by lia.
  now rewrite Nat.sub_diag.
Qed.

Lemma str_last_app_LF (t : string) : str_last (t +:+ LF) = Some LF_char.
Proof.
  induction t as [|c t IH]; [reflexivity|].
  rewrite str_app_cons. simpl. rewrite IH.
  destruct t; reflexivity.
Qed.

Lemma ends_with_LF_app (t : string) : ends_with_LF (t +:+ LF) = true.
Proof. unfold ends_with_LF. now rewrite str_last_app_LF. Qed.

Lemma str_drop_last_app_LF (t : string) : str_drop_last (t +:+ LF) = t.
Proof.
  induction t as [|c t IH]; [reflexivity|].
  rewrite str_app_cons. simpl. rewrite IH.
  destruct t; reflexivity.
Qed.

Lemma source_line_not_blank (x : line_cell) :
  plain_line x -> String.eqb (source_line x +:+ LF) LF = false.
Proof.
  intros Hx. apply String.eqb_neq. intros H.
  apply (source_line_nonempty x Hx).
  destruct (source_line x) as [|c s]; [reflexivity|].
  rewrite str_app_cons in H. injection H as _ H. now destruct s.
Qed.

Lemma marker_line_markdown (x : line_cell) :
  str_contains "markdown" (marker_line x) = lc_markdown x.
Proof. unfold marker_line. now destruct (lc_markdown x). Qed.

Section LoadCells.

Variable x : line_cell.
Hypothesis plain : plain_line x.
Variables pre post lines : list string.
Hypothesis Hlines : lines = pre ++ cell_lines x ++ post.
Hypothesis Hpost : 2 <= length post.

Lemma length_lines : length lines = length pre + 3 + length post.
Proof. rewrite Hlines, !length_app. simpl. lia. Qed.

Lemma list_item_marker : list_item lines (length pre) = Ok (marker_line x).
Proof. rewrite Hlines. apply list_item_app_here. Qed.

Lemma list_item_source :
  list_item lines (length pre + 1) = Ok (source_line x +:+ LF).
Proof.
  rewrite Hlines. unfold cell_lines.
  change (pre ++ [marker_line x; source_line x +:+ LF; LF] ++ post)
    with (pre ++ [marker_line x] ++ (source_line x +:+ LF) :: LF :: post).
  rewrite app_assoc.
  replace (length pre + 1) with (length (pre ++ [marker_line x]))
    by (rewrite length_app; reflexivity).
  apply list_item_app_here.
Qed.

Lemma list_item_blank : list_item lines (length pre + 1 + 1) = Ok LF.
Proof.
  rewrite Hlines. unfold cell_lines.
  change (pre ++ [marker_line x; source_line x +:+ LF; LF] ++ post)
    with (pre ++ [marker_line x; source_line x +:+ LF] ++ LF :: post).
  rewrite app_assoc.
  replace (length pre + 1 + 1)
    with (length (pre ++ [marker_line x; source_line x +:+ LF]))
    by (rewrite length_app; simpl; lia).
  apply list_item_app_here.
Qed.

Lemma markdown_block_cell (fuel : nat) :
  lc_markdown x = true ->
  V2.markdown_block (S (S fuel)) lines (length lines) (length pre + 1) []
  = Ok (length pre + 3, [lc_line x]).
Proof.
  intros Hmd. pose proof length_lines as Hlen.
  cbn [V2.markdown_block].
  destruct (Nat.ltb_spec (length pre + 1) (length lines - 1)); [|exfalso; lia].
  rewrite list_item_source. simpl bind.
  rewrite (source_line_not_blank x plain).
  rewrite ends_with_LF_app, str_drop_last_app_LF.
  destruct (Nat.ltb_spec (length pre + 1 + 1) (length lines - 1)); [|exfalso; lia].
  rewrite list_item_blank. simpl. unfold source_line. rewrite Hmd.
  replace (length pre + 1 + 1 + 1) with (length pre + 3) by lia.
  reflexivity.
Qed.

Lemma code_block_cell (fuel : nat) :
  lc_markdown x = false ->
  V2.code_block (S (S fuel)) lines (length lines) (length pre + 1) []
  = Ok (length pre + 3, [lc_line x]).
Proof.
  intros Hmd. pose proof length_lines as Hlen.
  cbn [V2.code_block].
  destruct (Nat.ltb_spec (length pre + 1) (length lines - 1)); [|exfalso; lia].
  rewrite list_item_source. simpl bind.
  rewrite (source_line_not_blank x plain).
  rewrite ends_with_LF_app, str_drop_last_app_LF.
  destruct (Nat.ltb_spec (length pre + 1 + 1) (length lines - 1)); [|exfalso; lia].
  rewrite list_item_blank. simpl. unfold source_line. rewrite Hmd.
  replace (length pre + 1 + 1 + 1) with (length pre + 3) by lia.
  reflexivity.
Qed.

(** One turn of the outer loop on the lines of a cell that is not the
    last one. *)
Lemma load_loop_cell (fuel : nat) (id : Z) (cells : list V2.cell) :
  V2.load_loop (S fuel) lines (length lines) (length pre) id cells
  = V2.load_loop fuel lines (length lines) (length pre + 3) (id + 1)
      (cells ++ [loaded_cell id x [lc_line x]]).
Proof.
  pose proof length_lines as Hlen.
  assert (Hfuel : exists f, length lines = S (S f))
    by (exists (length pre + 1 + length post); lia).
  destruct Hfuel as (f & Hf).
  cbn [V2.load_loop].
  destruct (Nat.ltb_spec (length pre) (length lines - 1)); [|exfalso; lia].
  rewrite list_item_marker. simpl bind.
  rewrite marker_line_markdown. unfold loaded_cell.
  destruct (lc_markdown x) eqn:Hmd.
  - rewrite Hf at 1. rewrite (markdown_block_cell _ Hmd). reflexivity.
  - rewrite Hf at 1. rewrite (code_block_cell _ Hmd). reflexivity.
Qed.

End LoadCells.

(** The last turn: the marker of the last cell is read, its source line
    is the last line of the file and is not. *)
Lemma load_loop_last_cell (x : line_cell) (pre : list string) (fuel : nat)
    (id : Z) (cells : list V2.cell) :
  let lines := pre ++ last_cell_lines x in
  V2.load_loop (S fuel) lines (length lines) (length pre) id cells
  = Ok (cells ++ [loaded_cell id x []]).
Proof.
  intros lines.
  assert (Hlen : length lines = length pre + 2).
  { unfold lines. rewrite length_app. reflexivity. }
  assert (Hitem : list_item lines (length pre) = Ok (marker_line x)).
  { unfold lines, last_cell_lines. apply list_item_app_here. }
  clearbody lines.
  cbn [V2.load_loop].
  destruct (Nat.ltb_spec (length pre) (length lines - 1)); [|exfalso; lia].
  rewrite Hitem. simpl bind. rewrite marker_line_markdown.
  assert (Hmd : forall f, V2.markdown_block f lines (length lines)
                            (length pre + 1) [] = Ok (length pre + 1, [])).
  { intros f. destruct f; cbn [V2.markdown_block];
      (destruct (Nat.ltb_spec (length pre + 1) (length lines - 1));
       [exfalso; lia | reflexivity]). }
  assert (Hcode : forall f, V2.code_block f lines (length lines)
                              (length pre + 1) [] = Ok (length pre + 1, [])).
  { intros f. destruct f; cbn [V2.code_block];
      (destruct (Nat.ltb_spec (length pre + 1) (length lines - 1));
       [exfalso; lia | reflexivity]). }
  assert (Hend : forall i cs, V2.load_loop fuel lines (length lines)
                                (length pre + 1) i cs = Ok cs).
  { intros i cs. destruct fuel; cbn [V2.load_loop];
      (destruct (Nat.ltb_spec (length pre + 1) (length lines - 1));
       [exfalso; lia | reflexivity]). }
  unfold loaded_cell.
  destruct (lc_markdown x).
  - rewrite Hmd. simpl. apply Hend.
  - rewrite Hcode. simpl. apply Hend.
Qed.

Lemma load_loop_cells (x : line_cell) (xs : list line_cell) :
  Forall plain_line xs ->
  forall (pre : list string) (fuel : nat) (id : Z) (cells : list V2.cell),
    length xs < fuel ->
    let lines := pre ++ flat_map cell_lines xs ++ last_cell_lines x in
    V2.load_loop fuel lines (length lines) (length pre) id cells
    = Ok (cells ++ loaded_cells id xs
                ++ [loaded_cell (id + Z.of_nat (length xs)) x []]).
Proof.
  induction 1 as [|a xs Ha _ IH]; intros pre fuel id cells Hfuel;
    (destruct fuel as [|fuel]; [simpl in Hfuel; lia|]).
  - simpl flat_map. simpl app. intros lines. unfold lines.
    rewrite load_loop_last_cell. now rewrite Z.add_0_r.
  - intros lines.
    assert (Hlines : lines
              = pre ++ cell_lines a
                    ++ (flat_map cell_lines xs ++ last_cell_lines x)).
    { unfold lines. cbn [flat_map]. now rewrite <- ?app_assoc. }
    rewrite (load_loop_cell a Ha pre _ lines Hlines).
    + assert (Hlines' : lines
                = (pre ++ cell_lines a)
                    ++ flat_map cell_lines xs ++ last_cell_lines x).
      { rewrite Hlines. now rewrite <- !app_assoc. }
      replace (length pre + 3) with (length (pre ++ cell_lines a))
        by (rewrite length_app; reflexivity).
      rewrite Hlines'. rewrite IH by (simpl in Hfuel; lia).
      simpl loaded_cells. simpl length. rewrite <- !app_assoc. simpl.
      replace (id + Z.of_nat (S (length xs)))%Z
        with (id + 1 + Z.of_nat (length xs))%Z by lia.
      reflexivity.
    + rewrite length_app. simpl. lia.
Qed.

(** X25: for cells of one line each, what [PyPercentLoader.load] makes of the
    text [to_py_percent] wrote: the cells in order with their kinds and
    source lines, numbered from 0 with execution count 1, but for the
    last cell, which comes back without its line. *)
Theorem py_percent_load_but_last (version version' : string)
    (xs : list line_cell) (x : line_cell) :
  Forall plain_line xs -> plain_line x ->
  bind (V1.to_py_percent (V1.mkNotebook version (map v1_cell (xs ++ [x]))))
       (V2.PyPercentLoader_load version')
  = Ok (V2.mkNotebook version'
          (loaded_cells 0 xs ++ [loaded_cell (Z.of_nat (length xs)) x []])).
Proof.
  intros Hxs Hx. rewrite to_py_percent_lines. simpl bind.
  unfold V2.PyPercentLoader_load. rewrite readlines_cell_lines by done.
  unfold V2.load_lines.
  pose proof (load_loop_cells x xs Hxs [] (length (flat_map cell_lines xs
                ++ last_cell_lines x)) 0%Z []) as H.
  simpl in H. rewrite H; [reflexivity|].
  rewrite length_app. simpl.
  clear. induction xs; simpl; lia.
Qed.

(** C1: the text written for the notebook of the single code cell [x=1]
    is loaded as a notebook whose only cell has no source line. *)
Theorem py_percent_load_loses_last_line :
  V1.to_py_percent Samples.one_code = Ok ("# %%" +:+ LF +:+ "x=1") /\
  V2.PyPercentLoader_load "4.5" ("# %%" +:+ LF +:+ "x=1")
  = Ok (V2.mkNotebook "4.5" [V2.CodeCell (JNum 0) (JList []) (JNum 1)]).
Proof. split; reflexivity. Qed.

(** On the notebook of the two cells [a] and [b], the markdown line loses
    its newline and the marker of the code cell is taken for its source. *)
Lemma py_percent_load_hi :
  V2.PyPercentLoader_load "4.5" Samples.hi_percent
  = Ok (V2.mkNotebook "4.5"
          [V2.MarkdownCell (JNum 0) (JList [JStr "Hi"]);
           V2.CodeCell (JNum 1) (JList [JStr "# %%"]) (JNum 1)]).
Proof. reflexivity. Qed.

(** * More properties of the toolbox *)

(** ** What [clear_outputs] keeps, and the functions run after it *)

Lemma clear_cell_cleared_rel (dic dic' : json) :
  V0.clear_cell dic = Ok dic' -> cleared dic dic'.
Proof.
  intros H. unfold V0.clear_cell in H.
  destruct (getitem dic "cell_type") as [ct|] eqn:Hct; [|discriminate].
  simpl in H. unfold cleared, is_code. rewrite Hct.
  apply getitem_Ok_inv in Hct. destruct Hct as (d & -> & Hct).
  destruct (is_str ct "code").
  - simpl in H. injection H as <-. split; [|split; [discriminate|]].
    + intros k Hk1 Hk2. simpl.
      now rewrite !dict_get_set_other by congruence.
    + intros _. simpl. rewrite dict_get_set_other by discriminate.
      now rewrite !dict_get_set_same.
  - injection H as <-. split; [reflexivity|]. split; [reflexivity|discriminate].
Qed.

Lemma clear_cells_Forall2 (dics dics' : list json) :
  V0.clear_cells dics = Ok dics' ->
  Forall2 (fun dic dic' => V0.clear_cell dic = Ok dic') dics dics'.
Proof.
  revert dics'. induction dics as [|dic dics IH]; simpl; intros dics' H.
  - injection H as <-. constructor.
  - destruct (V0.clear_cell dic) as [dic'|] eqn:E; [|discriminate].
    simpl in H.
    destruct (V0.clear_cells dics) as [rest|]; [|discriminate].
    simpl in H. injection H as <-. constructor; auto.
Qed.

(** The cells before and after a call of [clear_outputs] that returned. *)
Lemma clear_outputs_cells (ipynb ipynb' : json) :
  V0.clear_outputs ipynb = Ok ipynb' ->
  exists dics dics',
    cells_of ipynb = Ok dics /\ cells_of ipynb' = Ok dics' /\
    Forall2 (fun dic dic' => V0.clear_cell dic = Ok dic') dics dics'.
Proof.
  intros H. unfold V0.clear_outputs in H.
  destruct (getitem ipynb "cells") as [cells|] eqn:Hcells; [|discriminate].
  simpl in H.
  destruct (py_iter cells) as [dics|] eqn:Hiter; [|discriminate].
  simpl in H.
  destruct (V0.clear_cells dics) as [dics'|] eqn:Hclear; [|discriminate].
  simpl in H. apply clear_cells_Forall2 in Hclear.
  unfold cells_of. rewrite Hcells. cbn [bind]. rewrite Hiter.
  apply getitem_Ok_inv in Hcells. destruct Hcells as (d & -> & Hd).
  destruct cells as [| | |s|l|d0]; try discriminate.
  - (* the characters of a [str]: the body raises on the first one *)
    injection H as <-. cbn [getitem]. rewrite Hd. cbn [bind]. rewrite Hiter.
    exists dics, dics'. repeat split; [|exact Hclear].
    destruct Hclear as [|c c' ? ? Hc _]; [reflexivity|].
    exfalso. destruct s; simpl in Hiter; [discriminate|].
    injection Hiter as <- _. discriminate Hc.
  - simpl in H. injection H as <-. simpl in Hiter. injection Hiter as <-.
    cbn [getitem]. rewrite dict_get_set_same. cbn [bind py_iter].
    exists l, dics'. auto.
  - (* the keys of a dict: the same *)
    injection H as <-. cbn [getitem]. rewrite Hd. cbn [bind]. rewrite Hiter.
    exists dics, dics'. repeat split; [|exact Hclear].
    destruct Hclear as [|c c' ? ? Hc _]; [reflexivity|].
    exfalso. destruct d0 as [|[k v] d0]; simpl in Hiter; [discriminate|].
    injection Hiter as <- _. discriminate Hc.
Qed.

(** X1: [clear_outputs] keeps every key of the notebook but [cells], the
    number and order of the cells, every cell that is not a code cell, and
    in a code cell every key but [execution_count] and [outputs]. *)
Theorem clear_outputs_keeps (ipynb ipynb' : json) :
  V0.clear_outputs ipynb = Ok ipynb' ->
  (forall k, k <> "cells" -> getitem ipynb' k = getitem ipynb k) /\
  exists dics dics',
    cells_of ipynb = Ok dics /\ cells_of ipynb' = Ok dics' /\
    Forall2 cleared dics dics'.
Proof.
  intros H. split.
  - intros k Hk. unfold V0.clear_outputs in H.
    destruct (getitem ipynb "cells") as [cells|] eqn:Hcells; [|discriminate].
    simpl in H. destruct (py_iter cells); [|discriminate]. simpl in H.
    destruct (V0.clear_cells a); [|discriminate]. simpl in H.
    apply getitem_Ok_inv in Hcells. destruct Hcells as (d & -> & Hd).
    destruct cells; try (now injection H as <-).
    simpl in H. injection H as <-. simpl.
    now rewrite dict_get_set_other by congruence.
  - destruct (clear_outputs_cells _ _ H) as (dics & dics' & H1 & H2 & HF).
    exists dics, dics'. repeat split; try assumption.
    eapply Forall2_impl; [exact HF|]. apply clear_cell_cleared_rel.
Qed.

Lemma for_each_Forall2 {A S : Type} (body : S -> A -> res S)
    (l l' : list A) :
  Forall2 (fun a a' => forall s, body s a' = body s a) l l' ->
  forall s, for_each l' body s = for_each l body s.
Proof.
  induction 1 as [|a a' l l' Ha _ IH]; intros s; simpl; [reflexivity|].
  rewrite Ha. destruct (body s a); simpl; [apply IH | reflexivity].
Qed.

Lemma cleared_cell_type dic dic' :
  cleared dic dic' -> getitem dic' "cell_type" = getitem dic "cell_type".
Proof. intros (H & _). now apply H. Qed.

Lemma cleared_source dic dic' :
  cleared dic dic' -> getitem dic' "source" = getitem dic "source".
Proof. intros (H & _). now apply H. Qed.

(** X2: the text formats read the type and the source of a cell only:
    [to_percent] and [to_starboard] return after [clear_outputs] what they
    return before it. *)
Theorem text_after_clear_outputs (py_repr : json -> string)
    (ipynb ipynb' : json) (html : bool) :
  V0.clear_outputs ipynb = Ok ipynb' ->
  V0.to_percent ipynb' = V0.to_percent ipynb /\
  V0.to_starboard py_repr ipynb' html = V0.to_starboard py_repr ipynb html.
Proof.
  intros H.
  destruct (clear_outputs_keeps _ _ H) as (_ & dics & dics' & H1 & H2 & HF).
  unfold cells_of in H1, H2.
  assert (Hp : forall s, for_each dics' V0.percent_cell s
                         = for_each dics V0.percent_cell s).
  { apply for_each_Forall2. eapply Forall2_impl; [exact HF|].
    intros dic dic' Hc s. unfold V0.percent_cell.
    now rewrite (cleared_cell_type _ _ Hc), (cleared_source _ _ Hc). }
  assert (Hs : forall s, for_each dics' V0.starboard_cell s
                         = for_each dics V0.starboard_cell s).
  { apply for_each_Forall2. eapply Forall2_impl; [exact HF|].
    intros dic dic' Hc s. unfold V0.starboard_cell.
    now rewrite (cleared_cell_type _ _ Hc), (cleared_source _ _ Hc). }
  assert (Hh : forall s, for_each dics' V0.starboard_html_cell s
                         = for_each dics V0.starboard_html_cell s).
  { apply for_each_Forall2. eapply Forall2_impl; [exact HF|].
    intros dic dic' Hc s. unfold V0.starboard_html_cell.
    now rewrite (cleared_cell_type _ _ Hc), (cleared_source _ _ Hc). }
  destruct (getitem ipynb "cells") as [cv|] eqn:E; [|discriminate].
  destruct (getitem ipynb' "cells") as [cv'|] eqn:E'; [|discriminate].
  simpl in H1, H2.
  split.
  - unfold V0.to_percent. rewrite E, E'. simpl. rewrite H1, H2. simpl.
    now rewrite Hp.
  - unfold V0.to_starboard. rewrite E, E'. simpl. rewrite H1, H2. simpl.
    now rewrite Hs, Hh.
Qed.

Lemma is_code_cleared dic dic' :
  cleared dic dic' -> is_code dic' = is_code dic.
Proof.
  intros Hc. unfold is_code. now rewrite (cleared_cell_type _ _ Hc).
Qed.

(** X3: [get_images] tests [len(dic['outputs']) != 0] before it reads an
    output: after [clear_outputs] it returns the empty list. *)
Theorem get_images_after_clear_outputs (png_array : json -> res V0.pixels)
    (ipynb ipynb' : json) :
  V0.clear_outputs ipynb = Ok ipynb' ->
  V0.get_images png_array ipynb' = Ok [].
Proof.
  intros H.
  destruct (clear_outputs_cells _ _ H) as (dics & dics' & _ & H2 & HF).
  unfold cells_of in H2. unfold V0.get_images.
  destruct (getitem ipynb' "cells") as [cv'|]; [|discriminate].
  simpl in *. rewrite H2. simpl.
  clear H H2. generalize (@nil V0.pixels) as answer.
  induction HF as [|dic dic' dics dics' Hc _ IH]; intros answer; simpl;
    [reflexivity|].
  assert (Hstep : V0.image_cell png_array answer dic' = Ok answer).
  { pose proof (clear_cell_cleared_rel _ _ Hc) as (Hk & Hnc & Hcode).
    unfold V0.image_cell. unfold is_code in Hnc, Hcode.
    rewrite (Hk "cell_type") by discriminate.
    unfold V0.clear_cell in Hc.
    destruct (getitem dic "cell_type") as [ct|]; [|discriminate].
    simpl. destruct (is_str ct "code"); [|reflexivity].
    destruct (Hcode eq_refl) as (_ & ->). reflexivity. }
  rewrite Hstep. simpl. apply IH.
Qed.

(** The loops of [get_stream] and [get_exceptions] on cleared cells. *)
Lemma stream_cells_cleared (stdout stderr : bool) (dics dics' : list json) :
  Forall2 (fun dic dic' => V0.clear_cell dic = Ok dic') dics dics' ->
  Exists (fun dic => is_code dic = true) dics ->
  stdout || stderr = true ->
  forall output2,
    for_each dics' (V0.stream_cell stdout stderr) output2 = Raise IndexError.
Proof.
  intros HF Hex Hflag.
  induction HF as [|dic dic' dics dics' Hc _ IH]; intros output2.
  - inversion Hex.
  - pose proof (clear_cell_cleared_rel _ _ Hc) as Hcl.
    pose proof (is_code_cleared _ _ Hcl) as Hcode'.
    destruct Hcl as (Hk & Hnc & Hcode).
    simpl. unfold V0.stream_cell. unfold is_code in *.
    unfold V0.clear_cell in Hc.
    destruct (getitem dic "cell_type") as [ct|] eqn:Hct; [|discriminate].
    rewrite (Hk "cell_type"), Hct by discriminate. simpl.
    destruct (is_str ct "code") eqn:Hcode1.
    + destruct (Hcode eq_refl) as (_ & Hout).
      unfold V0.stream_branch, V0.first_output. rewrite Hout. simpl.
      destruct stdout; simpl; [reflexivity|].
      destruct stderr; simpl; [reflexivity | discriminate].
    + simpl. apply IH. inversion Hex as [? ? Hhd | ? ? Htl]; subst.
      * rewrite Hct in Hhd. congruence.
      * exact Htl.
Qed.

Lemma exception_cells_cleared (py_repr : json -> string) (exn : Type)
    (py_eval : string -> res exn) (dics dics' : list json) :
  Forall2 (fun dic dic' => V0.clear_cell dic = Ok dic') dics dics' ->
  Exists (fun dic => is_code dic = true) dics ->
  forall excep,
    for_each dics' (V0.exception_cell py_repr exn py_eval) excep
    = Raise IndexError.
Proof.
  intros HF Hex.
  induction HF as [|dic dic' dics dics' Hc _ IH]; intros excep.
  - inversion Hex.
  - pose proof (clear_cell_cleared_rel _ _ Hc) as (Hk & Hnc & Hcode).
    simpl. unfold V0.exception_cell. unfold is_code in *.
    unfold V0.clear_cell in Hc.
    destruct (getitem dic "cell_type") as [ct|] eqn:Hct; [|discriminate].
    rewrite (Hk "cell_type"), Hct by discriminate. simpl.
    destruct (is_str ct "code") eqn:Hcode1.
    + destruct (Hcode eq_refl) as (_ & Hout).
      unfold V0.first_output. rewrite Hout. reflexivity.
    + simpl. apply IH. inversion Hex as [? ? Hhd | ? ? Htl]; subst.
      * rewrite Hct in Hhd. congruence.
      * exact Htl.
Qed.

(** X4: [get_stream] and [get_exceptions] read [dic['outputs'][0]] of
    every code cell: after [clear_outputs] they raise [IndexError] on a
    notebook that has a code cell ([get_stream] when a stream is
    selected). *)
Theorem stream_and_exceptions_after_clear_outputs (py_repr : json -> string)
    (exn : Type) (py_eval : string -> res exn) (ipynb ipynb' : json)
    (dics : list json) (stdout stderr : bool) :
  V0.clear_outputs ipynb = Ok ipynb' ->
  cells_of ipynb = Ok dics ->
  Exists (fun dic => is_code dic = true) dics ->
  (stdout || stderr = true ->
   V0.get_stream py_repr ipynb' stdout stderr = Raise IndexError) /\
  V0.get_exceptions py_repr exn py_eval ipynb' = Raise IndexError.
Proof.
  intros H Hdics Hex.
  destruct (clear_outputs_cells _ _ H) as (dics0 & dics' & H1 & H2 & HF).
  rewrite Hdics in H1. injection H1 as <-.
  unfold cells_of in H2. unfold V0.get_stream, V0.get_exceptions.
  destruct (getitem ipynb' "cells") as [cv'|]; [|discriminate].
  simpl in *. rewrite H2. simpl. split.
  - intros Hflag. now rewrite (stream_cells_cleared _ _ _ _ HF Hex Hflag).
  - now rewrite (exception_cells_cleared _ _ _ _ _ HF Hex).
Qed.

(** ** When the emitters raise [IndexError] *)

Lemma getitem_not_IndexError x k : getitem x k <> Raise IndexError.
Proof.
  destruct x; simpl; try discriminate. destruct (dict_get k d); discriminate.
Qed.

Lemma py_iter_not_IndexError v : py_iter v <> Raise IndexError.
Proof. destruct v; discriminate. Qed.

Lemma py_join_not_IndexError l : py_join l <> Raise IndexError.
Proof.
  induction l as [|v l IH]; simpl; [discriminate|].
  destruct v; try discriminate.
  destruct (py_join l) as [r|e]; simpl; [discriminate|].
  intros [= ->]. now apply IH.
Qed.

Lemma percent_cell_outcome ans dic :
  match V0.percent_cell ans dic with
  | Ok ans' => ans' <> []
  | Raise e => e <> IndexError
  end.
Proof.
  unfold V0.percent_cell.
  destruct (getitem dic "cell_type") as [ct|e] eqn:Hct; simpl.
  2:{ intros ->. now apply (getitem_not_IndexError dic "cell_type"). }
  assert (Hsrc : forall k : list json -> res (list json),
             (forall elems, exists r, k elems = Ok r) ->
             match (do ans1 <- (do src <- getitem dic "source" ;;
                                do elems <- py_iter src ;; k elems) ;;
                    Ok (ans1 ++ [JStr LF] ++ [JStr LF])) with
             | Ok ans' => ans' <> []
             | Raise e => e <> IndexError
             end).
  { intros k Hk.
    destruct (getitem dic "source") as [src|e] eqn:Hs; simpl.
    2:{ intros ->. now apply (getitem_not_IndexError dic "source"). }
    destruct (py_iter src) as [elems|e] eqn:Hi; simpl.
    2:{ intros ->. now apply (py_iter_not_IndexError src). }
    destruct (Hk elems) as (r & ->). simpl. now destruct r. }
  destruct (is_str ct "markdown"); [apply Hsrc; eauto|].
  destruct (is_str ct "code"); [apply Hsrc; eauto|].
  simpl. now destruct ans.
Qed.

Lemma py_percent_cell_outcome ans c :
  match V1.py_percent_cell ans c with
  | Ok ans' => ans' <> []
  | Raise e => e <> IndexError
  end.
Proof.
  unfold V1.py_percent_cell.
  destruct c as [i ct ec src | ct i src];
    (destruct (py_iter src) as [elems|e] eqn:Hi; simpl;
     [ match goal with |- ?l ++ _ <> [] => now destruct l end
     | intros ->; now apply (py_iter_not_IndexError src) ]).
Qed.

(** A loop whose body leaves [ans] with an element and never raises
    [IndexError]. *)
Lemma for_each_outcome {A B : Type} (body : list B -> A -> res (list B)) :
  (forall ans x, match body ans x with
                 | Ok ans' => ans' <> []
                 | Raise e => e <> IndexError
                 end) ->
  forall l ans,
    match for_each l body ans with
    | Ok ans' => l <> [] \/ ans <> [] -> ans' <> []
    | Raise e => e <> IndexError
    end.
Proof.
  intros Hbody l. induction l as [|x l IH]; intros ans; simpl.
  - intros [H|H]; [congruence | exact H].
  - pose proof (Hbody ans x) as Hx.
    destruct (body ans x) as [ans1|e]; simpl; [|exact Hx].
    pose proof (IH ans1) as Hl.
    destruct (for_each l body ans1); [|exact Hl].
    intros _. apply Hl. now right.
Qed.

(** X5: [to_percent] raises [IndexError] exactly when there is no cell. *)
Theorem to_percent_IndexError (ipynb : json) (dics : list json) :
  cells_of ipynb = Ok dics ->
  (V0.to_percent ipynb = Raise IndexError <-> dics = []).
Proof.
  intros Hc. unfold cells_of in Hc. unfold V0.to_percent.
  destruct (getitem ipynb "cells") as [cv|]; [|discriminate].
  simpl in *. rewrite Hc. simpl. split.
  - intros H. pose proof (for_each_outcome _ percent_cell_outcome dics [])
      as Ho.
    destruct (for_each dics V0.percent_cell []) as [ans|e]; simpl in H.
    + destruct ans as [|v ans].
      * destruct dics; [reflexivity|]. exfalso. apply Ho; [now left | reflexivity].
      * exfalso. unfold list_pop in H. simpl bind in H.
        now apply (py_join_not_IndexError (removelast (v :: ans))).
    + congruence.
  - now intros ->.
Qed.

(** X6: and so does [to_py_percent]. *)
Theorem to_py_percent_IndexError (nb : V1.Notebook) :
  V1.to_py_percent nb = Raise IndexError <-> V1.cells nb = [].
Proof.
  unfold V1.to_py_percent. split.
  - intros H.
    pose proof (for_each_outcome _ py_percent_cell_outcome (V1.cells nb) [])
      as Ho.
    destruct (for_each (V1.cells nb) V1.py_percent_cell []) as [ans|e];
      simpl in H.
    + destruct ans as [|v ans].
      * destruct (V1.cells nb); [reflexivity|]. exfalso.
        apply Ho; [now left | reflexivity].
      * exfalso. unfold list_pop in H. simpl bind in H.
        now apply (py_join_not_IndexError (removelast (v :: ans))).
    + congruence.
  - now intros ->.
Qed.

(** ** The two constructions of a notebook from a dict *)

Lemma init_cell_load_cell (dic : json) (acc1 : list V1.cell)
    (acc2 : list V2.cell) :
  match V1.init_cell acc1 dic, V2.load_cell acc2 dic with
  | Ok a1, Ok a2 =>
      (a1 = acc1 /\ a2 = acc2) \/
      exists c c', a1 = acc1 ++ [c] /\ a2 = acc2 ++ [c'] /\ same_cell c c'
  | Raise _, Raise _ => True
  | _, _ => False
  end.
Proof.
  unfold V1.init_cell, V2.load_cell.
  destruct (getitem dic "cell_type") as [ct|] eqn:Hct; simpl; [|exact I].
  apply getitem_Ok_inv in Hct. destruct Hct as (d & -> & Hct).
  destruct (is_str ct "code").
  - unfold V1.CodeCell_init. simpl. rewrite Hct.
    destruct (dict_get "id" d); simpl; [|exact I].
    destruct (dict_get "execution_count" d); simpl.
    + destruct (dict_get "source" d); simpl; [|exact I].
      right. eexists _, _. repeat split.
    + now destruct (dict_get "source" d).
  - destruct (is_str ct "markdown"); [|now left].
    unfold V1.MarkdownCell_init. simpl. rewrite Hct.
    destruct (dict_get "id" d); simpl; [|exact I].
    destruct (dict_get "source" d); simpl; [|exact I].
    right. eexists _, _. repeat split.
Qed.

Lemma init_cells_load_cells (dics : list json) :
  forall (acc1 : list V1.cell) (acc2 : list V2.cell),
    Forall2 same_cell acc1 acc2 ->
    match for_each dics V1.init_cell acc1, for_each dics V2.load_cell acc2 with
    | Ok a1, Ok a2 => Forall2 same_cell a1 a2
    | Raise _, Raise _ => True
    | _, _ => False
    end.
Proof.
  induction dics as [|dic dics IH]; intros acc1 acc2 Hacc; simpl; [exact Hacc|].
  pose proof (init_cell_load_cell dic acc1 acc2) as Hd.
  destruct (V1.init_cell acc1 dic) as [a1|]; destruct (V2.load_cell acc2 dic)
    as [a2|]; simpl; try contradiction; [|exact I].
  apply IH. destruct Hd as [[-> ->] | (c & c' & -> & -> & Hc)]; [exact Hacc|].
  apply Forall2_app; [exact Hacc | now constructor].
Qed.

(** X7: [Notebook.__init__] (v1) and [NotebookLoader.load] (v2) accept
    the same dicts, and build notebooks with the same version, which is
    the one [get_format_version] returns, and cell by cell the same
    identifier, kind and source. *)
Theorem init_and_load_agree (py_repr : json -> string) (ipynb : json) :
  match V1.Notebook_init py_repr ipynb, V2.NotebookLoader_load py_repr ipynb
  with
  | Ok nb1, Ok nb2 =>
      V2.version nb2 = V1.version nb1 /\
      V0.get_format_version py_repr ipynb = Ok (V1.version nb1) /\
      Forall2 same_cell (V1.cells nb1) (V2.cells nb2)
  | Raise _, Raise _ => True
  | _, _ => False
  end.
Proof.
  unfold V1.Notebook_init, V2.NotebookLoader_load, V0.get_format_version.
  destruct (getitem ipynb "cells") as [cv|]; simpl.
  2:{ destruct (getitem ipynb "nbformat"); simpl; [|exact I].
      now destruct (getitem ipynb "nbformat_minor"). }
  destruct (py_iter cv) as [dics|]; simpl.
  2:{ destruct (getitem ipynb "nbformat"); simpl; [|exact I].
      now destruct (getitem ipynb "nbformat_minor"). }
  pose proof (init_cells_load_cells dics [] [] (List.Forall2_nil _)) as Hl.
  destruct (for_each dics V2.load_cell []) as [a2|]; simpl.
  - destruct (getitem ipynb "nbformat") as [major|]; simpl; [|exact I].
    destruct (getitem ipynb "nbformat_minor") as [minor|]; simpl; [|exact I].
    destruct (for_each dics V1.init_cell []) as [a1|]; simpl;
      [|contradiction].
    auto.
  - destruct (getitem ipynb "nbformat") as [major|]; simpl; [|exact I].
    destruct (getitem ipynb "nbformat_minor") as [minor|]; simpl; [|exact I].
    destruct (for_each dics V1.init_cell []) as [a1|]; simpl;
      [contradiction | exact I].
Qed.

(** ** [serialize], then [Notebook.__init__] *)

Lemma init_serialized_cells (cells acc : list V1.cell) :
  Forall wf_cell cells ->
  for_each (map V1.serialize_cell cells) V1.init_cell acc = Ok (acc ++ cells).
Proof.
  intros Hwf. revert acc.
  induction Hwf as [|c cells Hc _ IH]; intros acc; simpl.
  - now rewrite app_nil_r.
  - assert (Hstep : V1.init_cell acc (V1.serialize_cell c) = Ok (acc ++ [c])).
    { destruct c as [i ct ec src | ct i src]; simpl in Hc; subst ct;
        reflexivity. }
    rewrite Hstep. simpl. rewrite IH. now rewrite <- app_assoc.
Qed.

(** The pieces of a version that goes on after its second number. *)
Lemma split_version_more (major minor : Z) (rest : string) :
  exists pieces,
    str_split "." (str_of_Z major +:+ "." +:+ str_of_Z minor +:+ "." +:+ rest)
    = str_of_Z major :: str_of_Z minor :: pieces.
Proof.
  change ("." +:+ str_of_Z minor +:+ "." +:+ rest)
    with (String "." (str_of_Z minor +:+ String "." rest)).
  rewrite str_split_app by apply str_of_Z_no_dot.
  rewrite str_split_app by apply str_of_Z_no_dot.
  eauto.
Qed.

Lemma serialize_init_pieces (py_repr : json -> string) (nb : V1.Notebook)
    (major minor : Z) (pieces : list string) :
  str_split "." (V1.version nb) = str_of_Z major :: str_of_Z minor :: pieces ->
  Forall wf_cell (V1.cells nb) ->
  exists d,
    V1.serialize nb = Ok d /\
    V1.Notebook_init py_repr d
    = Ok (V1.mkNotebook (str_of_Z major +:+ "." +:+ str_of_Z minor)
            (V1.cells nb)).
Proof.
  intros Hsplit Hwf. unfold V1.serialize. rewrite Hsplit. simpl.
  rewrite !int_of_str_of_Z. simpl. eexists. split; [reflexivity|].
  unfold V1.Notebook_init. simpl.
  now rewrite (init_serialized_cells _ [] Hwf).
Qed.

(** X8: a notebook built by [Notebook.__init__] is built again, equal,
    from the dict [serialize] makes of it. *)
Theorem serialize_init_roundtrip (py_repr : json -> string) (nb : V1.Notebook)
    (major minor : Z) :
  V1.version nb = str_of_Z major +:+ "." +:+ str_of_Z minor ->
  Forall wf_cell (V1.cells nb) ->
  bind (V1.serialize nb) (V1.Notebook_init py_repr) = Ok nb.
Proof.
  intros Hv Hwf.
  destruct (serialize_init_pieces py_repr nb major minor []) as (d & -> & Hd);
    [now rewrite Hv, split_version | exact Hwf |].
  simpl. rewrite Hd, <- Hv. now destruct nb.
Qed.

(** X9: [serialize] reads the first two numbers of the version only: a
    version [major.minor.rest] comes back as [major.minor]. *)
Theorem serialize_truncates_version (py_repr : json -> string)
    (nb : V1.Notebook) (major minor : Z) (rest : string) :
  V1.version nb = str_of_Z major +:+ "." +:+ str_of_Z minor +:+ "." +:+ rest ->
  Forall wf_cell (V1.cells nb) ->
  bind (V1.serialize nb) (V1.Notebook_init py_repr)
  = Ok (V1.mkNotebook (str_of_Z major +:+ "." +:+ str_of_Z minor)
          (V1.cells nb)).
Proof.
  intros Hv Hwf.
  destruct (split_version_more major minor rest) as (pieces & Hp).
  destruct (serialize_init_pieces py_repr nb major minor pieces)
    as (d & -> & Hd); [now rewrite Hv | exact Hwf |].
  exact Hd.
Qed.


Lemma init_cell_kept (dic : json) (acc acc' : list V1.cell) :
  known_type dic ->
  V1.init_cell acc dic = Ok acc' ->
  exists c, acc' = acc ++ [c] /\ kept_by_serialize dic (V1.serialize_cell c).
Proof.
  intros (ct & Hct & Hknown) H. unfold V1.init_cell in H.
  rewrite Hct in H. simpl in H. unfold kept_by_serialize, is_code.
  rewrite Hct. apply getitem_Ok_inv in Hct. destruct Hct as (d & -> & Hct).
  destruct (is_str ct "code") eqn:Hcode.
  - unfold V1.CodeCell_init in H. simpl in H. rewrite Hct in H.
    destruct (dict_get "id" d) eqn:Hid; simpl in H; [|discriminate].
    destruct (dict_get "execution_count" d) eqn:Hec; simpl in H;
      [|discriminate].
    destruct (dict_get "source" d) eqn:Hsrc; simpl in H; [|discriminate].
    injection H as <-. eexists. split; [reflexivity|]. simpl.
    rewrite ?Hct, ?Hid, ?Hec, ?Hsrc. repeat split.
  - simpl in Hknown. rewrite Hknown in H.
    unfold V1.MarkdownCell_init in H. simpl in H. rewrite Hct in H.
    destruct (dict_get "id" d) eqn:Hid; simpl in H; [|discriminate].
    destruct (dict_get "source" d) eqn:Hsrc; simpl in H; [|discriminate].
    injection H as <-. eexists. split; [reflexivity|]. simpl.
    rewrite ?Hct, ?Hid, ?Hsrc. repeat split; discriminate.
Qed.

Lemma init_cells_kept (dics : list json) :
  Forall known_type dics ->
  forall acc cells,
    for_each dics V1.init_cell acc = Ok cells ->
    exists new, cells = acc ++ new /\
      Forall2 kept_by_serialize dics (map V1.serialize_cell new).
Proof.
  induction 1 as [|dic dics Hd _ IH]; intros acc cells H; simpl in H.
  - injection H as <-. exists []. rewrite app_nil_r. split; [done|constructor].
  - destruct (V1.init_cell acc dic) as [acc'|] eqn:E; [|discriminate].
    simpl in H. destruct (init_cell_kept dic acc acc' Hd E) as (c & -> & Hc).
    destruct (IH _ _ H) as (new & -> & Hnew).
    exists (c :: new). rewrite <- app_assoc. split; [done|].
    simpl. now constructor.
Qed.

(** X11: [Notebook.__init__] followed by [serialize] gives a dict with the
    cells in order, each with its type, identifier and source (and
    execution count), but without the outputs and the metadata of the
    cells and of the notebook. *)
Theorem init_serialize_drops (py_repr : json -> string) (ipynb d : json)
    (nb : V1.Notebook) (dics : list json) :
  cells_of ipynb = Ok dics ->
  Forall known_type dics ->
  V1.Notebook_init py_repr ipynb = Ok nb ->
  V1.serialize nb = Ok d ->
  getitem d "metadata" = Ok (JDict []) /\
  exists dics', cells_of d = Ok dics' /\ Forall2 kept_by_serialize dics dics'.
Proof.
  intros Hc Hknown Hinit Hser.
  unfold cells_of in Hc. unfold V1.Notebook_init in Hinit.
  destruct (getitem ipynb "nbformat"); [|discriminate].
  destruct (getitem ipynb "nbformat_minor"); [|discriminate].
  destruct (getitem ipynb "cells") as [cv|]; [|discriminate].
  simpl in Hc, Hinit. rewrite Hc in Hinit. simpl in Hinit.
  destruct (for_each dics V1.init_cell []) as [cells|] eqn:Hcells;
    [|discriminate].
  simpl in Hinit. injection Hinit as <-.
  destruct (init_cells_kept dics Hknown [] cells Hcells) as (new & -> & Hnew).
  unfold V1.serialize in Hser. simpl in Hser.
  destruct (list_item _ 0); [|discriminate]. simpl in Hser.
  destruct (int_of_str _); [|discriminate]. simpl in Hser.
  destruct (list_item _ 1); [|discriminate]. simpl in Hser.
  destruct (int_of_str _); [|discriminate]. simpl in Hser.
  injection Hser as <-. split; [reflexivity|].
  eexists. split; [reflexivity | exact Hnew].
Qed.

(** ** [Markdownizer] and [MarkdownLesser] together *)

Lemma filter_none {A : Type} (f : A -> bool) (l : list A) :
  (forall a, In a l -> f a = false) -> List.filter f l = [].
Proof.
  induction l as [|a l IH]; intros H; simpl; [reflexivity|].
  rewrite (H a) by now left. apply IH. intros b Hb. apply H. now right.
Qed.

Lemma filter_all {A : Type} (f : A -> bool) (l : list A) :
  (forall a, In a l -> f a = true) -> List.filter f l = l.
Proof.
  induction l as [|a l IH]; intros H; simpl; [reflexivity|].
  rewrite (H a) by now left. f_equal. apply IH. intros b Hb. apply H.
  now right.
Qed.

(** X12: after [markdownize] every cell of the notebook is a markdown
    cell, so that [remove_markdown_cells] leaves a notebook without
    cells. *)
Theorem markdownize_then_remove (nb : V2.NotebookRef) (h : gmap nat V2.cell) :
  V2.ref_cells
    (snd (V2.remove_markdown_cells (snd (V2.markdownize nb h))
            (fst (V2.markdownize nb h))))
  = [].
Proof.
  unfold V2.markdownize, V2.remove_markdown_cells. simpl.
  apply filter_none. intros a Ha.
  rewrite markdownize_lookup, decide_True by now apply list_elem_of_In.
  now destruct (h !! a).
Qed.

(** X13: [markdownize] run twice leaves the cells as the first run did. *)
Theorem markdownize_idempotent (nb : V2.NotebookRef) (h : gmap nat V2.cell) :
  V2.markdownize nb (fst (V2.markdownize nb h)) = V2.markdownize nb h.
Proof.
  unfold V2.markdownize. simpl. f_equal. apply map_eq. intros a.
  rewrite !markdownize_lookup.
  destruct (decide (a ∈ V2.ref_cells nb)); [|reflexivity].
  now destruct (h !! a).
Qed.

(** X14: [remove_markdown_cells] keeps, in their order, the cells of the
    notebook that are code cells; every cell it leaves is one, and a
    second run removes nothing more. *)
Theorem remove_markdown_cells_code_only (nb : V2.NotebookRef)
    (h : gmap nat V2.cell) :
  let nb' := snd (V2.remove_markdown_cells nb h) in
  (forall a, In a (V2.ref_cells nb') <->
             In a (V2.ref_cells nb) /\
             exists c, h !! a = Some c /\ V2.cell_class c = V2.CodeCellClass) /\
  sublist (V2.ref_cells nb') (V2.ref_cells nb) /\
  V2.remove_markdown_cells nb' h = (h, nb').
Proof.
  unfold V2.remove_markdown_cells. simpl.
  set (keep := fun a : nat =>
                 match h !! a with
                 | Some c => negb (V2.isinstance_MarkdownCell c)
                 | None => false
                 end).
  assert (Hkeep : forall a, keep a = true <->
            exists c, h !! a = Some c /\ V2.cell_class c = V2.CodeCellClass).
  { intros a. unfold keep, V2.isinstance_MarkdownCell.
    destruct (h !! a) as [c|]; [|split; [discriminate | now intros (? & ? & _)]].
    destruct (V2.cell_class c) eqn:E; simpl; split; eauto; try discriminate.
    intros (c' & [= <-] & Hc). congruence. }
  split; [|split].
  - intros a. rewrite filter_In, Hkeep. reflexivity.
  - induction (V2.ref_cells nb) as [|a l IH]; simpl; [constructor|].
    destruct (keep a); [now apply sublist_skip | now apply sublist_cons].
  - f_equal. f_equal. apply filter_all. intros a Ha.
    now apply filter_In in Ha.
Qed.

(** ** The lines [readlines] returns *)

Lemma universal_newlines_cons (c : ascii) (t : string) :
  V2.universal_newlines (String c t)
  = if Ascii.eqb c CR_char then
      match t with
      | String c' t' =>
          if Ascii.eqb c' LF_char then String LF_char (V2.universal_newlines t')
          else String LF_char (V2.universal_newlines t)
      | EmptyString => LF
      end
    else String c (V2.universal_newlines t).
Proof. reflexivity. Qed.

Lemma universal_newlines_not_CR (t : string) :
  str_forall not_CR (V2.universal_newlines t) = true.
Proof.
  assert (H : forall n t, String.length t <= n ->
                          str_forall not_CR (V2.universal_newlines t) = true).
  { clear t. induction n as [|n IH]; intros t Hn.
    - destruct t; [reflexivity | simpl in Hn; lia].
    - destruct t as [|c t]; [reflexivity|]. simpl in Hn.
      rewrite universal_newlines_cons.
      destruct (Ascii.eqb c CR_char) eqn:Hc.
      + destruct t as [|c' t']; [reflexivity|].
        destruct (Ascii.eqb c' LF_char).
        * cbn [str_forall]. rewrite IH by (simpl in Hn; lia). reflexivity.
        * cbn [str_forall]. rewrite IH by lia. reflexivity.
      + cbn [str_forall]. unfold not_CR at 1. rewrite Hc.
        rewrite IH by lia. reflexivity. }
  now apply (H (String.length t)).
Qed.

Lemma split_lines_nil (s : string) : V2.split_lines s = [] -> s = EmptyString.
Proof.
  destruct s as [|c t]; [reflexivity|]. simpl.
  destruct (Ascii.eqb c LF_char); [discriminate|].
  destruct (V2.split_lines t); discriminate.
Qed.

(** Nothing is lost: the lines put together are the text. *)
Lemma join_split_lines (s : string) : join_strs (V2.split_lines s) = s.
Proof.
  induction s as [|c t IH]; [reflexivity|]. simpl.
  destruct (Ascii.eqb_spec c LF_char) as [->|Hc].
  - simpl. now rewrite IH.
  - destruct (V2.split_lines t) as [|line rest] eqn:E.
    + apply split_lines_nil in E. now subst t.
    + simpl in *. rewrite str_app_cons. now rewrite IH.
Qed.

Lemma split_lines_shape (s : string) :
  Forall (fun line => line <> EmptyString /\
                      str_forall not_LF (str_drop_last line) = true)
         (V2.split_lines s).
Proof.
  induction s as [|c t IH]; simpl; [constructor|].
  destruct (Ascii.eqb c LF_char) eqn:Hc.
  - constructor; [|exact IH]. split; [discriminate | reflexivity].
  - destruct (V2.split_lines t) as [|line rest].
    + constructor; [|constructor]. split; [discriminate | reflexivity].
    + inversion IH as [|? ? (Hne & Hline) Hrest]; subst.
      constructor; [|exact Hrest]. split; [discriminate|].
      destruct line as [|c' line]; [congruence|].
      change (str_drop_last (String c (String c' line)))
        with (String c (str_drop_last (String c' line))).
      simpl str_forall. unfold not_LF at 1. rewrite Hc. exact Hline.
Qed.

Lemma str_forall_join (P : ascii -> bool) (ls : list string) :
  str_forall P (join_strs ls) = true ->
  Forall (fun s => str_forall P s = true) ls.
Proof.
  induction ls as [|s ls IH]; simpl; [constructor|].
  rewrite str_forall_app. intros [Hs Hls]%andb_true_iff.
  constructor; auto.
Qed.

(** X15: [readlines] loses nothing and cuts after each newline: the lines
    put together are the text (with ["\\r\\n"] and ["\\r"] turned into
    ["\\n"]), and each line is not empty and holds no carriage return and
    no newline but a last one. *)
Theorem readlines_lines (text : string) :
  join_strs (V2.readlines text) = V2.universal_newlines text /\
  Forall line_ok (V2.readlines text).
Proof.
  unfold V2.readlines. split; [apply join_split_lines|].
  pose proof (split_lines_shape (V2.universal_newlines text)) as Hshape.
  pose proof (str_forall_join not_CR
                (V2.split_lines (V2.universal_newlines text))) as Hcr.
  rewrite join_split_lines in Hcr.
  specialize (Hcr (universal_newlines_not_CR text)).
  induction Hshape as [|line rest (Hne & Hlf) _ IH]; [constructor|].
  inversion Hcr; subst. constructor; [|now apply IH].
  now repeat split.
Qed.

(** ** What the loader builds *)

(** X16: a file of at most one line is loaded as a notebook without
    cells. *)
Theorem load_short_file (version : string) (lines : list string) :
  length lines <= 1 ->
  V2.load_lines version lines = Ok (V2.mkNotebook version []).
Proof.
  intros Hl. unfold V2.load_lines.
  destruct (length lines) as [|[|n]] eqn:E; [reflexivity | reflexivity | lia].
Qed.

Lemma load_loop_shape (lines : list string) (l : nat) :
  forall fuel counter cells cells',
    V2.load_loop fuel lines l counter (Z.of_nat (length cells)) cells
    = Ok cells' ->
    (forall i c, nth_error cells i = Some c -> loaded_shape (Z.of_nat i) c) ->
    forall i c, nth_error cells' i = Some c -> loaded_shape (Z.of_nat i) c.
Proof.
  assert (Hstep : forall cells c,
            loaded_shape (Z.of_nat (length cells)) c ->
            (forall i c0, nth_error cells i = Some c0 ->
                          loaded_shape (Z.of_nat i) c0) ->
            forall i c0, nth_error (cells ++ [c]) i = Some c0 ->
                         loaded_shape (Z.of_nat i) c0).
  { intros cells c Hc Hcells i c0 Hi.
    destruct (Nat.lt_ge_cases i (length cells)) as [Hlt|Hge].
    - rewrite nth_error_app1 in Hi by exact Hlt. now apply Hcells.
    - rewrite nth_error_app2 in Hi by exact Hge.
      destruct (i - length cells) as [|k] eqn:Hk; simpl in Hi.
      + injection Hi as <-. now replace i with (length cells) by lia.
      + now destruct k. }
  induction fuel as [|fuel IH]; intros counter cells cells' H Hcells;
    cbn [V2.load_loop] in H.
  - destruct (Nat.ltb counter (l - 1)); [discriminate|].
    now injection H as <-.
  - destruct (Nat.ltb counter (l - 1)); [|now injection H as <-].
    destruct (list_item lines counter) as [line|]; [|discriminate].
    simpl in H. destruct (str_contains "markdown" line).
    + destruct (V2.markdown_block l lines l (counter + 1) []) as [r|];
        [|discriminate].
      simpl in H.
      replace (Z.of_nat (length cells) + 1)%Z with
        (Z.of_nat (length (cells ++ [V2.MarkdownCell
           (JNum (Z.of_nat (length cells))) (JList (map JStr (snd r)))])))
        in H by (rewrite length_app; simpl; lia).
      apply (IH _ _ _ H). apply Hstep; [|exact Hcells].
      repeat split; eauto.
    + destruct (V2.code_block l lines l (counter + 1) []) as [r|];
        [|discriminate].
      simpl in H.
      replace (Z.of_nat (length cells) + 1)%Z with
        (Z.of_nat (length (cells ++ [V2.CodeCell
           (JNum (Z.of_nat (length cells))) (JList (map JStr (snd r)))
           (JNum 1)])))
        in H by (rewrite length_app; simpl; lia).
      apply (IH _ _ _ H). apply Hstep; [|exact Hcells].
      repeat split; eauto.
Qed.

(** X17: [load] returns, for every list of lines and without an
    exception, a notebook of the version it was given whose cells are
    numbered from 0 in order, have lists of [str] for source, and are
    markdown cells without execution count or code cells of execution
    count 1. *)
Theorem load_shape (version : string) (lines : list string) :
  match V2.load_lines version lines with
  | Ok nb =>
      V2.version nb = version /\
      forall i c, nth_error (V2.cells nb) i = Some c ->
                  loaded_shape (Z.of_nat i) c
  | Raise _ => False
  end.
Proof.
  destruct (load_total version lines) as (nb & Hnb). rewrite Hnb.
  unfold V2.load_lines in Hnb.
  destruct (V2.load_loop (length lines) lines (length lines) 0 0 [])
    as [cells|] eqn:E; [|discriminate].
  simpl in Hnb. injection Hnb as <-. split; [reflexivity|]. simpl.
  apply (load_loop_shape lines (length lines) (length lines) 0 [] cells E).
  intros i c Hi. now destruct i.
Qed.

Lemma str_forall_drop (P : ascii -> bool) (n : nat) (s : string) :
  str_forall P s = true -> str_forall P (str_drop n s) = true.
Proof.
  revert s. induction n as [|n IH]; intros s Hs; [exact Hs|].
  destruct s as [|c t]; [reflexivity|]. simpl in *.
  apply andb_true_iff in Hs. apply IH, Hs.
Qed.

Lemma str_forall_drop_last (P : ascii -> bool) (s : string) :
  str_forall P s = true -> str_forall P (str_drop_last s) = true.
Proof.
  induction s as [|c t IH]; [reflexivity|]. intros Hs.
  simpl in Hs. apply andb_true_iff in Hs. destruct Hs as [Hc Ht].
  destruct t as [|c' t]; [reflexivity|].
  change (str_drop_last (String c (String c' t)))
    with (String c (str_drop_last (String c' t))).
  simpl str_forall. rewrite Hc. now apply IH.
Qed.

Lemma str_forall_last (s : string) :
  str_forall not_LF (str_drop_last s) = true -> ends_with_LF s = false ->
  str_forall not_LF s = true.
Proof.
  unfold ends_with_LF. induction s as [|c t IH]; [reflexivity|].
  destruct t as [|c' t].
  - simpl. intros _ Hc. unfold not_LF. now rewrite Hc.
  - change (str_drop_last (String c (String c' t)))
      with (String c (str_drop_last (String c' t))).
    change (str_last (String c (String c' t))) with (str_last (String c' t)).
    simpl str_forall. intros [Hc Ht]%andb_true_iff Hlast.
    rewrite Hc. simpl. now apply IH.
Qed.

Lemma no_newline_split (s : string) :
  str_forall not_LF s = true -> str_forall not_CR s = true ->
  str_forall no_newline s = true.
Proof.
  induction s as [|c t IH]; [reflexivity|]. simpl.
  intros [H1 H2]%andb_true_iff [H3 H4]%andb_true_iff.
  unfold no_newline at 1. unfold not_LF in H1. unfold not_CR in H3.
  now rewrite H1, H3, IH.
Qed.

(** The lines the two inner loops collect from a line of the file. *)
Lemma stripped_line_no_newline (line : string) :
  line_ok line ->
  str_forall no_newline (str_drop_last line) = true /\
  (ends_with_LF line = false -> str_forall no_newline line = true).
Proof.
  intros (_ & Hcr & Hlf). split.
  - apply no_newline_split; [exact Hlf | now apply str_forall_drop_last].
  - intros Hend. apply no_newline_split; [now apply str_forall_last | exact Hcr].
Qed.

Lemma list_item_In {A : Type} (l : list A) (i : nat) (x : A) :
  list_item l i = Ok x -> In x l.
Proof.
  unfold list_item. destruct (nth_error l i) eqn:E; [|discriminate].
  intros [= <-]. now apply nth_error_In in E.
Qed.

Section BlocksNoNewline.

Variable lines : list string.
Variable l : nat.
Hypothesis lines_ok : Forall line_ok lines.

Lemma markdown_block_no_newline fuel counter acc r :
  V2.markdown_block fuel lines l counter acc = Ok r ->
  Forall (fun s => str_forall no_newline s = true) acc ->
  Forall (fun s => str_forall no_newline s = true) (snd r).
Proof.
  revert counter acc. induction fuel as [|fuel IH]; intros counter acc H Hacc;
    cbn [V2.markdown_block] in H.
  - destruct (Nat.ltb counter (l - 1)); [discriminate|]. now injection H as <-.
  - destruct (Nat.ltb counter (l - 1)); [|now injection H as <-].
    destruct (list_item lines counter) as [line|] eqn:Hline; [|discriminate].
    cbn [bind] in H.
    assert (Hok : line_ok line).
    { rewrite List.Forall_forall in lines_ok. apply lines_ok.
      now apply (list_item_In lines counter). }
    destruct (stripped_line_no_newline line Hok) as (H1 & H2).
    destruct (String.eqb line LF); [now injection H as <-|].
    destruct (ends_with_LF line) eqn:Hend; apply (IH _ _ H);
      apply Forall_app; (split; [exact Hacc|]);
      (constructor; [|constructor]); apply str_forall_drop; auto.
Qed.

Lemma code_block_no_newline fuel counter acc r :
  V2.code_block fuel lines l counter acc = Ok r ->
  Forall (fun s => str_forall no_newline s = true) acc ->
  Forall (fun s => str_forall no_newline s = true) (snd r).
Proof.
  revert counter acc. induction fuel as [|fuel IH]; intros counter acc H Hacc;
    cbn [V2.code_block] in H.
  - destruct (Nat.ltb counter (l - 1)); [discriminate|]. now injection H as <-.
  - destruct (Nat.ltb counter (l - 1)); [|now injection H as <-].
    destruct (list_item lines counter) as [line|] eqn:Hline; [|discriminate].
    cbn [bind] in H.
    assert (Hok : line_ok line).
    { rewrite List.Forall_forall in lines_ok. apply lines_ok.
      now apply (list_item_In lines counter). }
    destruct (stripped_line_no_newline line Hok) as (H1 & H2).
    destruct (String.eqb line LF); [now injection H as <-|].
    destruct (ends_with_LF line) eqn:Hend; apply (IH _ _ H);
      apply Forall_app; (split; [exact Hacc|]);
      (constructor; [|constructor]); auto.
Qed.

Lemma load_loop_no_newline fuel counter id cells cells' :
  V2.load_loop fuel lines l counter id cells = Ok cells' ->
  Forall source_without_newline cells ->
  Forall source_without_newline cells'.
Proof.
  revert counter id cells.
  induction fuel as [|fuel IH]; intros counter id cells H Hcells;
    cbn [V2.load_loop] in H.
  - destruct (Nat.ltb counter (l - 1)); [discriminate|]. now injection H as <-.
  - destruct (Nat.ltb counter (l - 1)); [|now injection H as <-].
    destruct (list_item lines counter) as [line|]; [|discriminate].
    simpl in H. destruct (str_contains "markdown" line).
    + destruct (V2.markdown_block l lines l (counter + 1) []) as [r|] eqn:Hr;
        [|discriminate].
      simpl in H. apply (IH _ _ _ H). apply Forall_app. split; [exact Hcells|].
      constructor; [|constructor]. exists (snd r). split; [reflexivity|].
      now apply (markdown_block_no_newline _ _ _ _ Hr).
    + destruct (V2.code_block l lines l (counter + 1) []) as [r|] eqn:Hr;
        [|discriminate].
      simpl in H. apply (IH _ _ _ H). apply Forall_app. split; [exact Hcells|].
      constructor; [|constructor]. exists (snd r). split; [reflexivity|].
      now apply (code_block_no_newline _ _ _ _ Hr).
Qed.

End BlocksNoNewline.

(** X18: whatever the text of the file, [PyPercentLoader.load] returns a
    notebook, and no source line of its cells holds a newline or a
    carriage return. *)
Theorem load_sources_without_newline (version text : string) :
  match V2.PyPercentLoader_load version text with
  | Ok nb => Forall source_without_newline (V2.cells nb)
  | Raise _ => False
  end.
Proof.
  unfold V2.PyPercentLoader_load.
  destruct (load_total version (V2.readlines text)) as (nb & Hnb).
  rewrite Hnb. unfold V2.load_lines in Hnb.
  destruct (V2.load_loop _ _ _ 0 0 []) as [cells|] eqn:E; [|discriminate].
  simpl in Hnb. injection Hnb as <-. simpl.
  apply (load_loop_no_newline (V2.readlines text) _
           (proj2 (readlines_lines text)) _ _ _ _ _ E).
  constructor.
Qed.

(** ** The two branches of [to_starboard] *)

Lemma for_each_ext {A S : Type} (f g : S -> A -> res S) (l : list A) :
  Forall (fun a => forall s, f s a = g s a) l ->
  forall s, for_each l f s = for_each l g s.
Proof.
  induction 1 as [|a l Ha _ IH]; intros s; simpl; [reflexivity|].
  rewrite Ha. destruct (g s a); simpl; [apply IH | reflexivity].
Qed.

Lemma all_str_map (elems : list string) : all_str (map JStr elems).
Proof. induction elems; constructor; eauto. Qed.

Lemma py_join_all_str (py_repr : json -> string) (l : list json) :
  all_str l -> py_join l = Ok (join_strs (map (py_str py_repr) l)).
Proof.
  induction 1 as [|v l (s & ->) _ IH]; simpl; [reflexivity|].
  now rewrite IH.
Qed.

Lemma all_str_removelast (l : list json) : all_str l -> all_str (removelast l).
Proof.
  induction 1 as [|v l Hv Hl IH]; simpl; [constructor|].
  destruct l; [constructor | now constructor].
Qed.

Lemma all_str_app (a b : list json) : all_str a -> all_str b -> all_str (a ++ b).
Proof. intros Ha Hb. apply Forall_app. now split. Qed.

Lemma all_str_one (s : string) : all_str [JStr s].
Proof. constructor; [eauto | constructor]. Qed.

Lemma starboard_cells_agree (dic : json) (lst : list json) :
  known_type dic -> str_source dic ->
  V0.starboard_html_cell lst dic = V0.starboard_cell lst dic /\
  (all_str lst ->
   match V0.starboard_cell lst dic with
   | Ok lst' => all_str lst'
   | Raise _ => False
   end).
Proof.
  intros (ct & Hct & Hknown) (src & elems & Hsrc & Hiter).
  unfold V0.starboard_html_cell, V0.starboard_cell.
  rewrite Hct, Hsrc. simpl. rewrite Hiter. simpl.
  destruct (is_str ct "markdown") eqn:Hmd; simpl.
  - split; [now rewrite <- !app_assoc|]. intros Hl.
    apply all_str_app; [|apply all_str_one].
    apply all_str_app; [exact Hl|].
    apply (all_str_app [_]); [apply all_str_one | apply all_str_map].
  - rewrite orb_false_r in Hknown. rewrite Hknown. simpl.
    split; [now rewrite <- !app_assoc|]. intros Hl.
    apply all_str_app; [|apply all_str_one].
    apply all_str_app; [exact Hl|].
    apply (all_str_app [_]); [apply all_str_one | apply all_str_map].
Qed.

Lemma starboard_loop_all_str (dics : list json) :
  Forall known_type dics -> Forall str_source dics ->
  forall lst, all_str lst ->
    match for_each dics V0.starboard_cell lst with
    | Ok lst' => all_str lst'
    | Raise _ => False
    end.
Proof.
  induction 1 as [|dic dics Hk _ IH]; intros Hs lst Hl; simpl; [exact Hl|].
  inversion Hs as [|? ? Hsd Hsrest]; subst.
  destruct (starboard_cells_agree dic lst Hk Hsd) as (_ & Hstep).
  specialize (Hstep Hl).
  destruct (V0.starboard_cell lst dic) as [lst1|]; [|contradiction].
  simpl. now apply IH.
Qed.

(** X19: on a notebook of code and markdown cells whose sources are made
    of [str], the HTML branch of [to_starboard] wraps in the template the
    text the other branch returns (and raises [IndexError] as it does when
    there is no cell). *)
Theorem to_starboard_html_wraps (py_repr : json -> string) (ipynb : json)
    (dics : list json) :
  cells_of ipynb = Ok dics ->
  Forall known_type dics -> Forall str_source dics ->
  V0.to_starboard py_repr ipynb true
  = bind (V0.to_starboard py_repr ipynb false)
         (fun text => Ok (V0.starboard_html py_repr text)).
Proof.
  intros Hc Hk Hs. unfold cells_of in Hc. unfold V0.to_starboard.
  destruct (getitem ipynb "cells") as [cv|]; [|discriminate].
  simpl in *. rewrite Hc. simpl.
  rewrite (for_each_ext V0.starboard_html_cell V0.starboard_cell).
  2:{ clear Hc. induction Hk as [|dic dics Hd _ IH]; [constructor|].
      inversion Hs; subst. constructor; [|now apply IH].
      intros s. now apply starboard_cells_agree. }
  pose proof (starboard_loop_all_str dics Hk Hs [] (List.Forall_nil _)) as Hall.
  destruct (for_each dics V0.starboard_cell []) as [lst|]; [|contradiction].
  simpl. destruct lst as [|v lst]; [reflexivity|].
  unfold list_pop. cbn [bind].
  now rewrite (py_join_all_str py_repr _ (all_str_removelast _ Hall)).
Qed.

(** ** [Outliner] *)




Section OutlineProps.

Variable py_repr : json -> string.






(** X21: [outline] returns a text for every notebook whose sources are
    lists. *)
Theorem outline_succeeds (nb : V1.Notebook) :
  Forall (fun c => exists l, V1.cell_source c = JList l) (V1.cells nb) ->
  exists text, V1.outline py_repr nb = Ok text.
Proof.
  intros Hsrc. unfold V1.outline.
  assert (Hitem : forall l i, i < length l ->
            exists v, V1.py_item (JList l) i = Ok v).
  { intros l i Hi. simpl. now apply list_item_lt. }
  assert (Hlines : forall l mid k start out, start + k <= length l ->
            exists out', for_each (seq start k)
              (fun o i => do si <- V1.py_item (JList l) i ;;
                          Ok (o ++ [mid +:+ py_str py_repr si])) out = Ok out').
  { intros l mid k. induction k as [|k IH]; intros start out Hk; simpl;
      [eauto|].
    destruct (list_item_lt l start ltac:(lia)) as (v & ->). simpl.
    apply IH. lia. }
  assert (Hsource : forall top mid bot l out,
            exists out', V1.outline_source py_repr top mid bot (JList l) out
                         = Ok out').
  { intros top mid bot l out. unfold V1.outline_source. cbn [py_len bind].
    destruct (Nat.ltb_spec 1 (length l)) as [Hlt|Hge].
    - destruct (Hitem l 0 ltac:(lia)) as (s0 & ->). cbn [bind].
      destruct (Hlines l mid (length l - 1 - 1) 1
                  (out ++ [top +:+ py_str py_repr s0]) ltac:(lia)) as (o & ->).
      cbn [bind]. destruct l as [|v l]; [simpl in Hlt; lia|]. cbn [V1.py_last bind].
      destruct (Nat.eqb_spec (length (v :: l)) 1); [lia | eauto].
    - cbn [bind]. destruct (Nat.eqb_spec (length l) 1) as [H1|H1]; [|eauto].
      destruct (Hitem l 0 ltac:(lia)) as (s0 & ->). cbn [bind]. eauto. }
  assert (Hcells : forall out,
            exists out', for_each (V1.cells nb) (V1.outline_cell py_repr) out
                         = Ok out' /\ (out <> [] -> out' <> [])).
  { induction Hsrc as [|c cells (l & Hc) _ IH]; intros out; simpl; [eauto|].
    assert (Hcell : exists out1, V1.outline_cell py_repr out c = Ok out1 /\
                                 out1 <> []).
    { unfold V1.outline_cell. destruct c as [i ct ec src | ct i src];
        simpl in Hc; subst src;
        match goal with
        | |- context [V1.outline_source py_repr ?t ?m ?b ?s ?o] =>
            destruct (Hsource t m b l o) as (o1 & ->)
        end; simpl; eexists; (split; [reflexivity|]); now destruct o1. }
    destruct Hcell as (out1 & -> & Hne). simpl.
    destruct (IH out1) as (out' & -> & Hne'). eauto. }
  destruct (Hcells ["Jupyter Notebook v" +:+ V1.version nb +:+ LF])
    as (out' & -> & Hne).
  simpl. destruct out' as [|s out']; [now specialize (Hne ltac:(discriminate))|].
  eauto.
Qed.

End OutlineProps.

(** ** The extractors on cells that are not code cells *)

Lemma for_each_skip {A S : Type} (body : S -> A -> res S) (l : list A) :
  Forall (fun a => forall s, body s a = Ok s) l ->
  forall s, for_each l body s = Ok s.
Proof.
  induction 1 as [|a l Ha _ IH]; intros s; simpl; [reflexivity|].
  rewrite Ha. simpl. apply IH.
Qed.

(** X22: the three extractors read the outputs of code cells only: on a
    notebook without code cells they return the empty text and the empty
    lists, whatever else the cells hold. *)
Theorem extractors_without_code_cells (py_repr : json -> string) (exn : Type)
    (py_eval : string -> res exn) (png_array : json -> res V0.pixels)
    (ipynb : json) (dics : list json) (stdout stderr : bool) :
  cells_of ipynb = Ok dics ->
  Forall not_code dics ->
  V0.get_stream py_repr ipynb stdout stderr = Ok EmptyString /\
  V0.get_exceptions py_repr exn py_eval ipynb = Ok [] /\
  V0.get_images png_array ipynb = Ok [].
Proof.
  intros Hc Hn. unfold cells_of in Hc.
  unfold V0.get_stream, V0.get_exceptions, V0.get_images.
  destruct (getitem ipynb "cells") as [cv|]; [|discriminate].
  simpl in *. rewrite Hc. simpl.
  rewrite (for_each_skip (V0.stream_cell stdout stderr)),
          (for_each_skip (V0.exception_cell py_repr exn py_eval)),
          (for_each_skip (V0.image_cell png_array)); [auto | | |];
    (eapply Forall_impl; [exact Hn|]); intros dic (ct & Hct & Hcode) s.
  - unfold V0.image_cell. rewrite Hct. simpl. now rewrite Hcode.
  - unfold V0.exception_cell. rewrite Hct. simpl. now rewrite Hcode.
  - unfold V0.stream_cell. rewrite Hct. simpl. now rewrite Hcode.
Qed.

(** ** Instances of the properties that have a premise *)

Lemma hi_cells_known : Forall known_type Values.hi_cells.
Proof.
  repeat constructor; eexists; (split; [reflexivity|]); reflexivity.
Qed.

Lemma hi_cells_str_source : Forall str_source Values.hi_cells.
Proof.
  constructor; [|constructor; [|constructor]].
  - exists (JList [JStr ("Hi" +:+ LF)]), ["Hi" +:+ LF]. now split.
  - exists (JList [JStr "x=1"]), ["x=1"]. now split.
Qed.

Lemma hi_cells_code : Exists (fun dic => is_code dic = true) Values.hi_cells.
Proof. apply Exists_cons_tl, Exists_cons_hd. reflexivity. Qed.

Lemma hi_notebook_wf : Forall wf_cell (V1.cells Samples.hi_notebook).
Proof. repeat constructor. Qed.

Lemma clear_outputs_keeps_witness :
  V0.clear_outputs Samples.hi_dict = Ok Values.hi_cleared /\
  ((forall k, k <> "cells" ->
              getitem Values.hi_cleared k = getitem Samples.hi_dict k) /\
   exists dics dics',
     cells_of Samples.hi_dict = Ok dics /\
     cells_of Values.hi_cleared = Ok dics' /\
     Forall2 cleared dics dics').
Proof.
  split; [reflexivity|].
  apply (clear_outputs_keeps Samples.hi_dict Values.hi_cleared). reflexivity.
Defined.

Lemma text_after_clear_outputs_witness :
  V0.clear_outputs Samples.hi_dict = Ok Values.hi_cleared /\
  (V0.to_percent Values.hi_cleared = V0.to_percent Samples.hi_dict /\
   V0.to_starboard (fun _ => EmptyString) Values.hi_cleared false
   = V0.to_starboard (fun _ => EmptyString) Samples.hi_dict false).
Proof.
  split; [reflexivity|].
  apply (text_after_clear_outputs (fun _ => EmptyString) Samples.hi_dict
           Values.hi_cleared false).
  reflexivity.
Defined.

Lemma get_images_after_clear_outputs_witness :
  V0.clear_outputs Samples.hi_dict = Ok Values.hi_cleared /\
  V0.get_images (fun _ => Raise ValueError) Values.hi_cleared = Ok [].
Proof.
  split; [reflexivity|].
  apply (get_images_after_clear_outputs (fun _ => Raise ValueError)
           Samples.hi_dict Values.hi_cleared).
  reflexivity.
Defined.

Lemma stream_and_exceptions_after_clear_outputs_witness :
  V0.clear_outputs Samples.hi_dict = Ok Values.hi_cleared /\
  cells_of Samples.hi_dict = Ok Values.hi_cells /\
  Exists (fun dic => is_code dic = true) Values.hi_cells /\
  ((true || false = true ->
    V0.get_stream (fun _ => EmptyString) Values.hi_cleared true false
    = Raise IndexError) /\
   V0.get_exceptions (fun _ => EmptyString) unit (fun _ => Ok tt)
     Values.hi_cleared = Raise IndexError).
Proof.
  split; [reflexivity|]. split; [reflexivity|]. split; [exact hi_cells_code|].
  apply (stream_and_exceptions_after_clear_outputs (fun _ => EmptyString)
           unit (fun _ => Ok tt) Samples.hi_dict Values.hi_cleared
           Values.hi_cells true false);
    [reflexivity | reflexivity | exact hi_cells_code].
Defined.

Lemma to_percent_IndexError_witness :
  cells_of Samples.minimal = Ok [] /\
  (V0.to_percent Samples.minimal = Raise IndexError <-> @nil json = []).
Proof.
  split; [reflexivity|].
  apply (to_percent_IndexError Samples.minimal []). reflexivity.
Defined.

Lemma to_percent_to_py_percent_witness :
  getitem Samples.hi_dict "cells" = Ok (JList Values.hi_cells) /\
  py_iter (JList Values.hi_cells) = Ok Values.hi_cells /\
  Forall known_type Values.hi_cells /\
  V1.Notebook_init (fun _ => EmptyString) Samples.hi_dict
  = Ok Samples.hi_notebook /\
  V0.to_percent Samples.hi_dict
  = bind (V1.to_py_percent Samples.hi_notebook) (fun s => Ok (s +:+ LF)).
Proof.
  split; [reflexivity|]. split; [reflexivity|].
  split; [exact hi_cells_known|]. split; [reflexivity|].
  apply (to_percent_to_py_percent (fun _ => EmptyString) Samples.hi_dict
           (JList Values.hi_cells) Values.hi_cells Samples.hi_notebook);
    [reflexivity | reflexivity | exact hi_cells_known | reflexivity].
Defined.

Lemma serialize_init_roundtrip_witness :
  V1.version Samples.hi_notebook = str_of_Z 4 +:+ "." +:+ str_of_Z 5 /\
  Forall wf_cell (V1.cells Samples.hi_notebook) /\
  bind (V1.serialize Samples.hi_notebook)
       (V1.Notebook_init (fun _ => EmptyString))
  = Ok Samples.hi_notebook.
Proof.
  split; [reflexivity|]. split; [exact hi_notebook_wf|].
  apply (serialize_init_roundtrip (fun _ => EmptyString) Samples.hi_notebook
           4 5); [reflexivity | exact hi_notebook_wf].
Defined.

Lemma serialize_truncates_version_witness :
  let nb := V1.mkNotebook "4.5.1" (V1.cells Samples.hi_notebook) in
  V1.version nb = str_of_Z 4 +:+ "." +:+ str_of_Z 5 +:+ "." +:+ "1" /\
  Forall wf_cell (V1.cells nb) /\
  bind (V1.serialize nb) (V1.Notebook_init (fun _ => EmptyString))
  = Ok (V1.mkNotebook (str_of_Z 4 +:+ "." +:+ str_of_Z 5) (V1.cells nb)).
Proof.
  intros nb. split; [reflexivity|]. split; [exact hi_notebook_wf|].
  apply (serialize_truncates_version (fun _ => EmptyString) nb 4 5 "1");
    [reflexivity | exact hi_notebook_wf].
Defined.


Lemma init_serialize_drops_witness :
  cells_of Samples.hi_dict = Ok Values.hi_cells /\
  Forall known_type Values.hi_cells /\
  V1.Notebook_init (fun _ => EmptyString) Samples.hi_dict
  = Ok Samples.hi_notebook /\
  V1.serialize Samples.hi_notebook = Ok Values.hi_serialized /\
  (getitem Values.hi_serialized "metadata" = Ok (JDict []) /\
   exists dics', cells_of Values.hi_serialized = Ok dics' /\
                 Forall2 kept_by_serialize Values.hi_cells dics').
Proof.
  split; [reflexivity|]. split; [exact hi_cells_known|].
  split; [reflexivity|]. split; [reflexivity|].
  apply (init_serialize_drops (fun _ => EmptyString) Samples.hi_dict
           Values.hi_serialized Samples.hi_notebook Values.hi_cells);
    [reflexivity | exact hi_cells_known | reflexivity | reflexivity].
Defined.

Lemma load_short_file_witness :
  length ["# %%"] <= 1 /\
  V2.load_lines "4.5" ["# %%"] = Ok (V2.mkNotebook "4.5" []).
Proof.
  split; [simpl; lia|]. apply (load_short_file "4.5" ["# %%"]). simpl. lia.
Defined.

Lemma plain_hi_line : plain_line Values.hi_line.
Proof. split; [reflexivity | discriminate]. Qed.

Lemma plain_x_line : plain_line Values.x_line.
Proof. split; [reflexivity | discriminate]. Qed.

Lemma py_percent_load_but_last_witness :
  Forall plain_line [Values.hi_line] /\ plain_line Values.x_line /\
  bind (V1.to_py_percent
          (V1.mkNotebook "4.5"
             (map v1_cell ([Values.hi_line] ++ [Values.x_line]))))
       (V2.PyPercentLoader_load "4.5")
  = Ok (V2.mkNotebook "4.5"
          (loaded_cells 0 [Values.hi_line]
           ++ [loaded_cell (Z.of_nat (length [Values.hi_line]))
                 Values.x_line []])).
Proof.
  assert (H : Forall plain_line [Values.hi_line])
    by (constructor; [exact plain_hi_line | constructor]).
  split; [exact H|]. split; [exact plain_x_line|].
  apply (py_percent_load_but_last "4.5" "4.5" [Values.hi_line] Values.x_line);
    [exact H | exact plain_x_line].
Defined.

Lemma to_starboard_html_wraps_witness :
  cells_of Samples.hi_dict = Ok Values.hi_cells /\
  Forall known_type Values.hi_cells /\ Forall str_source Values.hi_cells /\
  V0.to_starboard (fun _ => EmptyString) Samples.hi_dict true
  = bind (V0.to_starboard (fun _ => EmptyString) Samples.hi_dict false)
         (fun text => Ok (V0.starboard_html (fun _ => EmptyString) text)).
Proof.
  split; [reflexivity|]. split; [exact hi_cells_known|].
  split; [exact hi_cells_str_source|].
  apply (to_starboard_html_wraps (fun _ => EmptyString) Samples.hi_dict
           Values.hi_cells);
    [reflexivity | exact hi_cells_known | exact hi_cells_str_source].
Defined.

Lemma outline_succeeds_witness :
  Forall (fun c => exists l, V1.cell_source c = JList l)
         (V1.cells Samples.hi_notebook) /\
  exists text, V1.outline (fun _ => EmptyString) Samples.hi_notebook = Ok text.
Proof.
  assert (H : Forall (fun c => exists l, V1.cell_source c = JList l)
                     (V1.cells Samples.hi_notebook))
    by (repeat constructor; eexists; reflexivity).
  split; [exact H|].
  apply (outline_succeeds (fun _ => EmptyString) Samples.hi_notebook). exact H.
Defined.

Lemma extractors_without_code_cells_witness :
  let dics := [Samples.markdown_dict "a" ["Hi"]] in
  cells_of Values.only_markdown = Ok dics /\
  Forall not_code dics /\
  (V0.get_stream (fun _ => EmptyString) Values.only_markdown true true
   = Ok EmptyString /\
   V0.get_exceptions (fun _ => EmptyString) unit (fun _ => Ok tt)
     Values.only_markdown = Ok [] /\
   V0.get_images (fun _ => Raise ValueError) Values.only_markdown = Ok []).
Proof.
  intros dics.
  assert (H : Forall not_code dics).
  { constructor; [|constructor]. eexists. split; reflexivity. }
  split; [reflexivity|]. split; [exact H|].
  apply (extractors_without_code_cells (fun _ => EmptyString) unit
           (fun _ => Ok tt) (fun _ => Raise ValueError) Values.only_markdown
           dics true true); [reflexivity | exact H].
Defined.
